(** * funcslower / profile_slower: the BPF hooks and the report code

    A shallow embedding of [tools/funcslower.py] (the latency tracer) and
    [tools/profile_slower.py] (the sampling profiler).  Each tool is a
    Python script that carries a C program for the in-kernel hooks in
    [bpf_text]; both halves are embedded here.

    Conventions.
    - A C [u64]/[u32] is a [Z]; where the C code computes, the wrap-around
      is written out ([u64], [u32]).  Values handed in by the kernel
      (time stamps, register contents, pid/tgid) are taken as they come.
    - A [BPF_HASH] is a [gmap]; [update], [lookup], [delete] and
      [lookup_or_init] are [insert], [!!], [delete] and insert-if-absent.
      The table's [max_entries] is fixed by the bcc headers, which are
      not part of these two files, and is not modelled.
    - The kernel helpers a hook calls ([bpf_ktime_get_ns],
      [bpf_get_current_pid_tgid], [get_stackid], ...) are read from a
      record [hook] that describes one invocation.
    - Python's [print] appends one string to the list of lines written;
      a raised exception ends the function with the lines written so far. *)

From Stdlib Require Import ZArith Lia DecimalString Ascii.
From Stdlib Require HexadecimalString.
From stdpp Require Import gmap strings list fin_maps sorting.

Local Open Scope string_scope.
Local Open Scope list_scope.
Local Open Scope Z_scope.

(** ** C integers *)

Definition u64 (z : Z) : Z := z mod 2 ^ 64.
Definition u32 (z : Z) : Z := z mod 2 ^ 32.

(** An integer literal pasted into the C text and compared with a [u64]:
    the usual arithmetic conversions turn it into a [u64]. *)
Definition u64_of_literal (z : Z) : Z := u64 z.

(** An integer literal compared with a [u32]: a literal of type [int] is
    converted to [unsigned int]; a literal too wide for [int] has type
    [long], and the [u32] is widened instead. *)
Definition u32_cmp_literal (z : Z) : Z :=
  if (- 2 ^ 31 <=? z) && (z <? 0) then u32 z else z.

(** ** errno *)

Definition EFAULT : Z := 14.
Definition ENOMEM : Z := 12.

(** ** Python strings and [print] *)

(** ["%d" % z] *)
Definition fmt_d (z : Z) : string := NilZero.string_of_int (Z.to_int z).

(** [sep.join(l)] *)
Fixpoint join (sep : string) (l : list string) : string :=
  match l with
  | [] => ""
  | [s] => s
  | s :: rest => s +:+ sep +:+ join sep rest
  end.

Fixpoint spaces (n : nat) : string :=
  match n with O => "" | S n => " " +:+ spaces n end.

(** ["%-16s" % s]: left-justified in a field of [w] characters. *)
Definition fmt_ljust (w : nat) (s : string) : string :=
  s +:+ spaces (w - String.length s).

Definition newline : string := String (ascii_of_nat 10) "".

Inductive exn : Type :=
  | AttributeError (attr : string)
  | UnicodeDecodeError
  | IndexError.

(** Lines written to standard output, then how the code ended. *)
Definition py (A : Type) : Type := list string * (exn + A).

Definition print (s : string) : py unit := ([s], inr tt).
Definition py_raise {A} (e : exn) : py A := ([], inl e).

#[local] Instance py_ret : MRet py := λ A a, ([], inr a).
#[local] Instance py_bind : MBind py := λ A B k m,
  match m with
  | (out, inl e) => (out, inl e)
  | (out, inr a) => let '(out', r) := k a in (out ++ out', r)
  end.

(** [name.decode()] on the bytes of a command name: the text, or a
    [UnicodeDecodeError].  Which byte strings decode is the interpreter's
    matter (ASCII under Python 2, UTF-8 under Python 3); the report code
    takes it as the parameter [decode], [None] standing for the error. *)
Definition py_decode (decode : string → option string) (bytes : string)
    : py string :=
  match decode bytes with
  | Some text => mret text
  | None => py_raise UnicodeDecodeError
  end.

(** [l[i]]: a negative index counts from the end of the list. *)
Definition py_index {A} (l : list A) (i : Z) : py A :=
  let i := if i <? 0 then i + Z.of_nat (length l) else i in
  if i <? 0 then py_raise IndexError
  else
    match l !! Z.to_nat i with
    | Some x => mret x
    | None => py_raise IndexError
    end.

(** [for x in l: body(x)] *)
Fixpoint py_for {A} (l : list A) (body : A → py unit) : py unit :=
  match l with
  | [] => mret tt
  | x :: rest => body x ;; py_for rest body
  end.

Definition stdout {A} (m : py A) : list string := m.1.

(** ** What the kernel hands to a hook *)

Record pt_regs : Type := {
  PT_REGS_PARM1 : Z; PT_REGS_PARM2 : Z; PT_REGS_PARM3 : Z;
  PT_REGS_PARM4 : Z; PT_REGS_PARM5 : Z; PT_REGS_PARM6 : Z;
  PT_REGS_RC : Z;
  PT_REGS_IP : Z
}.

(** One invocation of a hook: the registers and the results of the
    helpers the hook calls. *)
Record hook : Type := {
  ctx : pt_regs;
  bpf_get_current_pid_tgid : Z;
  bpf_ktime_get_ns : Z;
  bpf_get_current_comm : string;
  (** [stack_traces.get_stackid(ctx, ... | BPF_F_USER_STACK)] *)
  get_stackid_user : Z;
  (** [stack_traces.get_stackid(ctx, ...)] without [BPF_F_USER_STACK] *)
  get_stackid_kernel : Z
}.

(** The kernel-header macros that pick [page_offset]. *)
Record kconfig : Type := {
  CONFIG_X86_64 : bool;
  __PAGE_OFFSET_BASE : option Z;
  __PAGE_OFFSET_BASE_L4 : option Z;
  __PAGE_OFFSET_BASE_L5 : Z;
  CONFIG_DYNAMIC_MEMORY_LAYOUT : bool;
  CONFIG_X86_5LEVEL : bool;
  PAGE_OFFSET : Z
}.

Definition page_offset (k : kconfig) : Z :=
  match CONFIG_X86_64 k, __PAGE_OFFSET_BASE k, __PAGE_OFFSET_BASE_L4 k with
  | true, Some base, _ => base
  | true, None, Some l4 =>
      if CONFIG_DYNAMIC_MEMORY_LAYOUT k && CONFIG_X86_5LEVEL k
      then __PAGE_OFFSET_BASE_L5 k else l4
  | _, _, _ => PAGE_OFFSET k
  end.

(** [struct entry_t]; [e_args] is empty unless [GRAB_ARGS] is defined. *)
Record entry_t : Type := {
  e_id : Z;
  e_start_ns : Z;
  e_args : list Z
}.

(** The Python side's handle on the loaded program: the symbolizer and
    the [stack_traces] table. *)
Record BPF : Type := {
  ksym : Z → string;
  sym : Z → Z → string;
  stack_traces_walk : Z → list Z
}.

(** [stack_id_err] of funcslower.py; profile_slower.py writes the same
    test inline. *)
Definition stack_id_err (stack_id : Z) : bool :=
  (stack_id <? 0) && negb (stack_id =? - EFAULT).

(** ** More of Python's strings and lists *)

(** ["%x" % z] *)
Definition fmt_x (z : Z) : string :=
  HexadecimalString.NilZero.string_of_int (Z.to_hex_int z).

(** [l[:n]]: a negative [n] counts from the end. *)
Definition slice_to {A} (n : Z) (l : list A) : list A :=
  if 0 <=? n then take (Z.to_nat n) l
  else take (Z.to_nat (Z.of_nat (length l) + n)) l.

(** [c in s], for a one-character [c] *)
Fixpoint contains (c : ascii) (s : string) : bool :=
  match s with
  | EmptyString => false
  | String c' rest => if Ascii.eqb c' c then true else contains c rest
  end.

(** [s.split(c)], for a one-character [c]: the fields between the
    occurrences of [c], at least one. *)
Fixpoint split (c : ascii) (s : string) : list string :=
  match s with
  | EmptyString => [EmptyString]
  | String c' rest =>
      if Ascii.eqb c' c then EmptyString :: split c rest
      else
        match split c rest with
        | field :: fields => String c' field :: fields
        | [] => [String c' EmptyString]
        end
  end.

(** What the attach loop, which both scripts share, asks of bcc for one
    function. *)
Inductive attachment : Type :=
  | attach_uprobe (name sym fn_name : string)
  | attach_uretprobe (name sym fn_name : string)
  | attach_kprobe (event fn_name : string)
  | attach_kretprobe (event fn_name : string).

(** The body of [for i, function in enumerate(args.functions)]; [None] is
    the [ValueError] of unpacking [function.split(":")] into two names.
    Whether bcc then finds the symbol is not modelled. *)
Definition attach_function (i : nat) (function : string)
    : option (list attachment) :=
  if contains ":" function then
    match split ":" function with
    | [library; func] =>
        Some [attach_uprobe library func ("trace_" +:+ fmt_d (Z.of_nat i));
              attach_uretprobe library func "trace_return"]
    | _ => None
    end
  else
    Some [attach_kprobe function ("trace_" +:+ fmt_d (Z.of_nat i));
          attach_kretprobe function "trace_return"].

(** The loop from index [i] on: what was attached, and whether the loop
    ran to its end. *)
Fixpoint attach_functions (i : nat) (functions : list string)
    : list attachment * bool :=
  match functions with
  | [] => ([], true)
  | function :: rest =>
      match attach_function i function with
      | None => ([], false)
      | Some probes =>
          let '(later, finished) := attach_functions (S i) rest in
          (probes ++ later, finished)
      end
  end.

(** * funcslower.py *)

Module funcslower.

(** The parsed command line.  [duration_ns] is the script-level variable
    computed from [--min-ms]/[--min-us] (1000000 when neither is given);
    the float arithmetic of that conversion is not modelled. *)
Record Args : Type := {
  tgid : option Z;
  arguments : option Z;
  time : bool;
  timestamp : bool;
  functions : list string;
  user_stack : bool;
  kernel_stack : bool;
  folded : bool;
  duration_ns : Z;
  kernel : kconfig
}.

(** Python truth value of an optional integer option
    ([if args.tgid:], [if args.arguments:]). *)
Definition truthy (o : option Z) : bool :=
  match o with
  | Some z => negb (z =? 0)
  | None => false
  end.

(** ** The text substitutions applied to [bpf_text] *)

Definition GRAB_ARGS (args : Args) : bool := truthy (arguments args).
Definition USER_STACKS (args : Args) : bool := user_stack args.
Definition KERNEL_STACKS (args : Args) : bool := kernel_stack args.

(** [TGID_FILTER]: ['tgid != %d' % args.tgid], or ['0']. *)
Definition TGID_FILTER (args : Args) (tgid_v : Z) : bool :=
  match tgid args with
  | Some p => if p =? 0 then false else negb (tgid_v =? u32_cmp_literal p)
  | None => false
  end.

Definition DURATION_NS (args : Args) : Z := u64_of_literal (duration_ns args).

(** [USER_STACK_GET] / [KERNEL_STACK_GET]: the helper call, or ["-1"]. *)
Definition USER_STACK_GET (args : Args) (h : hook) : Z :=
  if user_stack args then get_stackid_user h
  else if kernel_stack args then -1
  else get_stackid_user h.

Definition KERNEL_STACK_GET (args : Args) (h : hook) : Z :=
  if user_stack args then -1 else get_stackid_kernel h.

(** [struct data_t], which the Python side reads back as [Data]
    ([pid] there is [tgid_pid]).  A field that an [#ifdef] leaves out is
    kept at the zero of [data = {}]; the Python side reads such a field
    only behind the matching option.  [struct data_t] puts the stack
    fields before [args] and [Data] puts them after, so the Python side
    reads the fields the hook wrote only when [-a] is not combined with
    [-U] or [-K]; what is said of a record that goes from the hook to the
    report is said under that condition. *)
Record data_t : Type := {
  d_id : Z;
  tgid_pid : Z;
  start_ns : Z;
  d_duration_ns : Z;
  retval : Z;
  name : string;
  user_stack_id : Z;
  kernel_stack_id : Z;
  kernel_ip : Z;
  d_args : list Z
}.

(** ** The hooks *)

Definition trace_entry (args : Args) (h : hook) (id_v : Z)
    (entryinfo : gmap Z entry_t) : gmap Z entry_t :=
  let tgid_pid_v := bpf_get_current_pid_tgid h in
  let tgid_v := u32 (tgid_pid_v ≫ 32) in
  if TGID_FILTER args tgid_v then entryinfo
  else
    let entry := {|
      e_id := u64 id_v;
      e_start_ns := bpf_ktime_get_ns h;
      e_args :=
        if GRAB_ARGS args then
          [PT_REGS_PARM1 (ctx h); PT_REGS_PARM2 (ctx h); PT_REGS_PARM3 (ctx h);
           PT_REGS_PARM4 (ctx h); PT_REGS_PARM5 (ctx h); PT_REGS_PARM6 (ctx h)]
        else []
    |} in
    <[tgid_pid_v := entry]> entryinfo.

(** The table after the hook, and the record handed to
    [events.perf_submit], if any. *)
Definition trace_return (args : Args) (h : hook)
    (entryinfo : gmap Z entry_t) : gmap Z entry_t * option data_t :=
  let tgid_pid_v := bpf_get_current_pid_tgid h in
  match entryinfo !! tgid_pid_v with
  | None => (entryinfo, None)
  | Some entryp =>
      let delta_ns := u64 (bpf_ktime_get_ns h - e_start_ns entryp) in
      let entryinfo := delete tgid_pid_v entryinfo in
      if delta_ns <? DURATION_NS args then (entryinfo, None)
      else
        let user_stack_id_v :=
          if USER_STACKS args then USER_STACK_GET args h else 0 in
        let kernel_stack_id_v :=
          if KERNEL_STACKS args then KERNEL_STACK_GET args h else 0 in
        let kernel_ip_v :=
          if KERNEL_STACKS args && (0 <=? kernel_stack_id_v) then
            let ip := PT_REGS_IP (ctx h) in
            if page_offset (kernel args) <? ip then ip else 0
          else 0 in
        let data := {|
          d_id := e_id entryp;
          tgid_pid := tgid_pid_v;
          start_ns := e_start_ns entryp;
          d_duration_ns := delta_ns;
          retval := PT_REGS_RC (ctx h);
          name := bpf_get_current_comm h;
          user_stack_id := user_stack_id_v;
          kernel_stack_id := kernel_stack_id_v;
          kernel_ip := kernel_ip_v;
          d_args := if GRAB_ARGS args then e_args entryp else []
        |} in
        (entryinfo, Some data)
  end.

(** The probes attached for [args.functions]: [trace_<i>] on entry,
    [trace_return] on return. *)
Inductive probe : Type :=
  | Entry (h : hook) (i : nat)
  | Return (h : hook).

(** [int trace_<i>(ctx) { return trace_entry(ctx, <i>); }] *)
Definition trace_ (args : Args) (i : nat) (h : hook)
    (entryinfo : gmap Z entry_t) : gmap Z entry_t :=
  trace_entry args h (Z.of_nat i) entryinfo.

(** One probe firing: the table and the records submitted so far. *)
Definition fire (args : Args) (st : gmap Z entry_t * list data_t) (p : probe)
    : gmap Z entry_t * list data_t :=
  match p with
  | Entry h i => (trace_ args i h st.1, st.2)
  | Return h =>
      let '(entryinfo, submitted) := trace_return args h st.1 in
      (entryinfo, st.2 ++ option_list submitted)
  end.

Definition run (args : Args) (ps : list probe)
    (st : gmap Z entry_t * list data_t) : gmap Z entry_t * list data_t :=
  foldl (fire args) st ps.

(** ** The report *)

(** [aksym] reads [args.annotations], an option this script's parser
    does not define. *)
Definition aksym (b : BPF) (addr : Z) : py string :=
  py_raise (AttributeError "annotations").

Definition need_delimiter (args : Args) : bool :=
  kernel_stack args && user_stack args.

Definition print_stack (decode : string → option string) (args : Args)
    (b : BPF) (event : data_t) : py unit :=
  let user_stack_v :=
    if negb (user_stack args) || (user_stack_id event <? 0) then []
    else stack_traces_walk b (user_stack_id event) in
  let kernel_tmp :=
    if negb (kernel_stack args) || (kernel_stack_id event <? 0) then []
    else stack_traces_walk b (kernel_stack_id event) in
  let kernel_stack_v :=
    if kernel_stack args && (0 <=? kernel_stack_id event) then kernel_tmp
    else [] in
  if folded args then
    name_v ← py_decode decode (name event);
    let line := [name_v] in
    let line :=
      if user_stack args then
        if stack_id_err (user_stack_id event)
        then line ++ ["[Missed User Stack]"]
        else line ++ map (λ addr, sym b addr (tgid_pid event))
                         (rev user_stack_v)
      else line in
    let line :=
      if kernel_stack args then
        let line :=
          line ++ (if need_delimiter args && (0 <=? kernel_stack_id event)
                      && (0 <=? user_stack_id event)
                   then ["-"] else []) in
        if stack_id_err (kernel_stack_id event)
        then line ++ ["[Missed Kernel Stack]"]
        else line ++ map (ksym b) (rev kernel_stack_v)
      else line in
    print (join ";" line +:+ " " +:+ fmt_d 1)
  else
    (if negb (user_stack args) then
       if stack_id_err (kernel_stack_id event)
       then print "    [Missed Kernel Stack]"
       else py_for kernel_stack_v
              (λ addr, s ← aksym b addr; print ("    " +:+ s))
     else mret tt) ;;
    (if negb (kernel_stack args) then
       (if need_delimiter args && (0 <=? user_stack_id event)
           && (0 <=? kernel_stack_id event)
        then print "    --" else mret tt) ;;
       if stack_id_err (user_stack_id event)
       then print "    [Missed User Stack]"
       else py_for user_stack_v
              (λ addr, print ("    " +:+ sym b addr (tgid_pid event)))
     else mret tt) ;;
    name_v ← py_decode decode (name event);
    print ("    " +:+ fmt_ljust 16 "-" +:+ " " +:+ name_v
           +:+ " (" +:+ fmt_d (tgid_pid event) +:+ ")").

(** What [time_str] does to the global [earliest_ts]: with [-t] and
    without [-T], the first record printed sets it to its start time. *)
Definition time_str_state (args : Args) (earliest_ts : Z) (event : data_t)
    : Z :=
  if time args then earliest_ts
  else if timestamp args then
    if earliest_ts =? 0 then start_ns event else earliest_ts
  else earliest_ts.

(** [print_event], from the value of [earliest_ts] to its value
    afterwards.  [event_line] stands for the formatted columns of the
    non-folded line, given [earliest_ts] as [time_str] leaves it, the
    record, its decoded name and the name of its function; the columns go
    through [time.strftime], ["%7.2f"] and ["%-10.6f"]. *)
Definition print_event (decode : string → option string) (args : Args)
    (b : BPF) (event_line : Z → data_t → string → string → string)
    (earliest_ts : Z) (event : data_t) : py Z :=
  earliest_ts ←
    (if negb (folded args) then
       let earliest_ts := time_str_state args earliest_ts event in
       name_v ← py_decode decode (name event);
       function ← py_index (functions args) (d_id event);
       print (event_line earliest_ts event name_v function) ;;
       mret earliest_ts
     else mret earliest_ts);
  (if user_stack args || kernel_stack args
   then print_stack decode args b event
   else mret tt) ;;
  mret earliest_ts.

(** The loop around [b.perf_buffer_poll()]: each submitted record is
    handed, in turn, to [print_event].  An exception of [print_event] ends
    the loop as it would end any Python loop; what bcc does with an
    exception raised inside its callback is outside these two files. *)
Definition perf_buffer_poll (decode : string → option string) (args : Args)
    (b : BPF) (event_line : Z → data_t → string → string → string)
    (earliest_ts : Z) (events : list data_t) : py Z :=
  foldl (λ acc event,
           earliest_ts ← acc;
           print_event decode args b event_line earliest_ts event)
        (mret earliest_ts) events.

(** [args_str]: the first [args.arguments] entry arguments, as hex. *)
Definition args_str (args : Args) (event : data_t) : string :=
  if negb (truthy (arguments args)) then ""
  else
    join " " (map (λ arg, "0x" +:+ fmt_x arg)
                  (slice_to (default 0 (arguments args)) (d_args event))).

End funcslower.

(** * profile_slower.py *)

(** [sorted(items, key=...)]: ascending by key, and stable, as Python's
    sort is. *)
Fixpoint insert_by {A} (key : A → Z) (x : A) (l : list A) : list A :=
  match l with
  | [] => [x]
  | y :: rest =>
      if key x <=? key y then x :: y :: rest else y :: insert_by key x rest
  end.

Definition sorted {A} (key : A → Z) (l : list A) : list A :=
  foldr (insert_by key) [] l.

(** [int(val)] on a string: surrounding white space, an optional sign and
    decimal digits; anything else is a [ValueError] ([None]). *)
Fixpoint digits_value (acc : Z) (s : string) : option Z :=
  match s with
  | EmptyString => Some acc
  | String c rest =>
      match Ascii.is_nat c with
      | Some d => digits_value (10 * acc + Z.of_nat d) rest
      | None => None
      end
  end.

Definition int_of_digits (s : string) : option Z :=
  match s with
  | EmptyString => None
  | _ => digits_value 0 s
  end.

Fixpoint lstrip (s : string) : string :=
  match s with
  | String c rest => if Ascii.is_space c then lstrip rest else s
  | EmptyString => EmptyString
  end.

Definition strip (s : string) : string :=
  String.rev (lstrip (String.rev (lstrip s))).

Definition int (val : string) : option Z :=
  match strip val with
  | String "-" digits => Z.opp <$> int_of_digits digits
  | String "+" digits => int_of_digits digits
  | digits => int_of_digits digits
  end.

Module profile_slower.

(** ** arg validation *)

(** The message of the [argparse.ArgumentTypeError] raised, or the
    value. *)
Definition positive_int (val : string) : string + Z :=
  match int val with
  | None => inl "must be an integer"
  | Some ival =>
      if ival <? 0 then inl "must be positive" else inr ival
  end.

Definition positive_nonzero_int (val : string) : string + Z :=
  match positive_int val with
  | inl msg => inl msg
  | inr ival =>
      if ival =? 0 then inl "must be nonzero" else inr ival
  end.

(** The options as typed on the command line. *)
Record argv : Type := {
  opt_pid : option string;
  opt_user_stacks_only : bool;
  opt_kernel_stacks_only : bool;
  opt_frequency : option string;
  opt_delimited : bool;
  opt_annotations : bool;
  opt_folded : bool;
  opt_stack_storage_size : option string;
  opt_duration : option string;
  opt_functions : list string
}.

Record Args : Type := {
  pid : option Z;
  user_stacks_only : bool;
  kernel_stacks_only : bool;
  frequency : Z;
  delimited : bool;
  annotations : bool;
  folded : bool;
  stack_storage_size : Z;
  duration : Z;
  functions : list string;
  kernel : kconfig
}.

(** An option with [type=] and [default=]: the default when the option is
    absent, else the validator's verdict. *)
Definition typed_option (type : string → string + Z) (default_v : Z)
    (o : option string) : option Z :=
  match o with
  | None => Some default_v
  | Some val => match type val with inl _ => None | inr v => Some v end
  end.

(** [parser.parse_args()]: [None] is argparse's usage error, which ends
    the script with status 2.  The checks are those the parser is set up
    with: the [type=] validators, the mutually exclusive stack group and
    the non-empty list of functions. *)
Definition parse_args (k : kconfig) (a : argv) : option Args :=
  pid_v ← match opt_pid a with
           | None => Some None
           | Some val =>
               match positive_int val with
               | inl _ => None
               | inr v => Some (Some v)
               end
           end;
  frequency_v ← typed_option positive_int 49 (opt_frequency a);
  storage_v ← typed_option positive_nonzero_int 10240
                 (opt_stack_storage_size a);
  duration_v ← typed_option positive_nonzero_int 99999999 (opt_duration a);
  if opt_user_stacks_only a && opt_kernel_stacks_only a then None
  else if bool_decide (opt_functions a = []) then None
  else Some {|
    pid := pid_v;
    user_stacks_only := opt_user_stacks_only a;
    kernel_stacks_only := opt_kernel_stacks_only a;
    frequency := frequency_v;
    delimited := opt_delimited a;
    annotations := opt_annotations a;
    folded := opt_folded a;
    stack_storage_size := storage_v;
    duration := duration_v;
    functions := opt_functions a;
    kernel := k
  |}.

(** What the script does after parsing: it stops with the usage error, or
    goes on to [b.attach_perf_event(..., sample_freq=args.frequency)] and
    the probes of [args.functions]. *)
Inductive startup : Type :=
  | usage_error
  | attach (sample_freq : Z) (probes : list string).

Definition start (k : kconfig) (a : argv) : startup :=
  match parse_args k a with
  | None => usage_error
  | Some args => attach (frequency args) (functions args)
  end.

(** ** The BPF program *)

Record key_t : Type := {
  k_pid : Z;
  kernel_ip : Z;
  kernel_ret_ip : Z;
  user_stack_id : Z;
  kernel_stack_id : Z;
  name : string
}.

#[global] Instance key_t_eq_dec : EqDecision key_t.
Proof. solve_decision. Defined.

#[global] Instance key_t_countable : Countable key_t.
Proof.
  refine (inj_countable'
    (λ k, (k_pid k, kernel_ip k, kernel_ret_ip k,
           user_stack_id k, kernel_stack_id k, name k))
    (λ t, let '(p, ip, rip, u, kk, n) := t in
          {| k_pid := p; kernel_ip := ip; kernel_ret_ip := rip;
             user_stack_id := u; kernel_stack_id := kk; name := n |}) _).
  by intros [].
Defined.

(** The two tables the hooks share. *)
Record tables : Type := {
  entryinfo : gmap Z entry_t;
  counts : gmap key_t Z
}.

(** [THREAD_FILTER]: ['pid == %s' % args.pid], or ['1']. *)
Definition THREAD_FILTER (args : Args) (pid_v : Z) : bool :=
  match pid args with
  | Some p => pid_v =? u32_cmp_literal p
  | None => true
  end.

(** [duration_ns = 1000000] *)
Definition DURATION_NS : Z := u64_of_literal 1000000.

Definition USER_STACK_GET (args : Args) (h : hook) : Z :=
  if user_stacks_only args then get_stackid_user h
  else if kernel_stacks_only args then -1
  else get_stackid_user h.

Definition KERNEL_STACK_GET (args : Args) (h : hook) : Z :=
  if user_stacks_only args then -1 else get_stackid_kernel h.

(** [TGID_FILTER] is replaced by ['0'] and [GRAB_ARGS] is never
    defined. *)
Definition trace_entry (h : hook) (id_v : Z) (t : tables) : tables :=
  let tgid_pid_v := bpf_get_current_pid_tgid h in
  let entry := {|
    e_id := u64 id_v;
    e_start_ns := bpf_ktime_get_ns h;
    e_args := []
  |} in
  {| entryinfo := <[tgid_pid_v := entry]> (entryinfo t); counts := counts t |}.

Definition trace_return (h : hook) (t : tables) : tables :=
  let tgid_pid_v := bpf_get_current_pid_tgid h in
  match entryinfo t !! tgid_pid_v with
  | None => t
  | Some entryp =>
      {| entryinfo := delete tgid_pid_v (entryinfo t); counts := counts t |}
  end.

(** The map key [do_perf_event] builds once a tick is to be counted:
    [struct key_t key = {.pid = pid}], the command name, the two stack
    ids and the kernel instruction pointer. *)
Definition perf_key (args : Args) (h : hook) : key_t :=
  let pid_v := u32 (bpf_get_current_pid_tgid h ≫ 32) in
  let user_stack_id_v := USER_STACK_GET args h in
  let kernel_stack_id_v := KERNEL_STACK_GET args h in
  let kernel_ip_v :=
    if 0 <=? kernel_stack_id_v then
      let ip := PT_REGS_IP (ctx h) in
      if page_offset (kernel args) <? ip then ip else 0
    else 0 in
  {| k_pid := pid_v;
     kernel_ip := kernel_ip_v;
     kernel_ret_ip := 0;
     user_stack_id := user_stack_id_v;
     kernel_stack_id := kernel_stack_id_v;
     name := bpf_get_current_comm h |}.

Definition do_perf_event (args : Args) (h : hook) (t : tables) : tables :=
  let pid_v := u32 (bpf_get_current_pid_tgid h ≫ 32) in
  if negb (THREAD_FILTER args pid_v) then t
  else
    let tgid_pid_v := bpf_get_current_pid_tgid h in
    match entryinfo t !! tgid_pid_v with
    | None => t
    | Some entryp =>
        let delta_ns := u64 (bpf_ktime_get_ns h - e_start_ns entryp) in
        if delta_ns <? DURATION_NS then t
        else
          let key := perf_key args h in
          (* counts.lookup_or_init(&key, &zero), then the increment *)
          let val := default 0 (counts t !! key) in
          {| entryinfo := entryinfo t;
             counts := <[key := u64 (val + 1)]> (counts t) |}
    end.

(** What fires during a run: the probes of [args.functions] and the
    timer. *)
Inductive event : Type :=
  | Entry (h : hook) (i : nat)
  | Return (h : hook)
  | Tick (h : hook).

Definition fire (args : Args) (t : tables) (e : event) : tables :=
  match e with
  | Entry h i => trace_entry h (Z.of_nat i) t
  | Return h => trace_return h t
  | Tick h => do_perf_event args h t
  end.

Definition run (args : Args) (es : list event) (t : tables) : tables :=
  foldl (fire args) t es.

(** A tick gets as far as the stack capture: it passes [THREAD_FILTER],
    its thread has an entry in [entryinfo], and that entry is at least
    [DURATION_NS] old. *)
Definition captures (args : Args) (h : hook) (t : tables) : bool :=
  THREAD_FILTER args (u32 (bpf_get_current_pid_tgid h ≫ 32)) &&
  match entryinfo t !! bpf_get_current_pid_tgid h with
  | None => false
  | Some entryp =>
      negb (u64 (bpf_ktime_get_ns h - e_start_ns entryp) <? DURATION_NS)
  end.

(** The number of ticks of a run that get as far as the stack capture. *)
Fixpoint captured_ticks (args : Args) (es : list event) (t : tables) : nat :=
  match es with
  | [] => 0%nat
  | e :: rest =>
      ((match e with
        | Tick h => if captures args h t then 1 else 0
        | _ => 0
        end) + captured_ticks args rest (fire args t e))%nat
  end.

(** The sum of the counts over all keys. *)
Definition total (counts_v : gmap key_t Z) : Z :=
  map_fold (λ _ v acc, v + acc) 0 counts_v.

(** ** Output Report *)

Definition aksym (args : Args) (b : BPF) (addr : Z) : string :=
  if annotations args then ksym b addr +:+ "_[k]" else ksym b addr.

Definition need_delimiter (args : Args) : bool :=
  delimited args && negb (kernel_stacks_only args || user_stacks_only args).

(** The test under "handle get_stackid erorrs". *)
Definition stack_missing (args : Args) (k : key_t) : bool :=
  (negb (user_stacks_only args) && (kernel_stack_id k <? 0)
     && negb (kernel_stack_id k =? - EFAULT))
  || (negb (kernel_stacks_only args) && (user_stack_id k <? 0)
     && negb (user_stack_id k =? - EFAULT)).

(** The [kernel_stack] list after "fix kernel stack". *)
Definition fixed_kernel_stack (b : BPF) (k : key_t) : list Z :=
  let kernel_tmp :=
    if kernel_stack_id k <? 0 then []
    else stack_traces_walk b (kernel_stack_id k) in
  if 0 <=? kernel_stack_id k then
    if negb (kernel_ip k =? 0) then kernel_ip k :: kernel_tmp
    else kernel_tmp
  else [].

(** The body of the output loop for one [(k, v)], after the error
    bookkeeping. *)
Definition print_entry (decode : string → option string) (args : Args)
    (b : BPF) (kv : key_t * Z) : py unit :=
  let '(k, v) := kv in
  let user_stack :=
    if user_stack_id k <? 0 then []
    else stack_traces_walk b (user_stack_id k) in
  let kernel_stack := fixed_kernel_stack b k in
  let do_delimiter :=
    need_delimiter args && negb (bool_decide (kernel_stack = [])) in
  if folded args then
    name_v ← py_decode decode (name k);
    let line :=
      [name_v] ++ map (λ addr, sym b addr (k_pid k)) (rev user_stack)
      ++ (if do_delimiter then ["-"] else [])
      ++ map (aksym args b) (rev kernel_stack) in
    print (join ";" line +:+ " " +:+ fmt_d v)
  else
    py_for kernel_stack (λ addr, print ("    " +:+ aksym args b addr)) ;;
    (if do_delimiter then print "    --" else mret tt) ;;
    py_for user_stack (λ addr, print ("    " +:+ sym b addr (k_pid k))) ;;
    name_v ← py_decode decode (name k);
    print ("    " +:+ fmt_ljust 16 "-" +:+ " " +:+ name_v
           +:+ " (" +:+ fmt_d (k_pid k) +:+ ")") ;;
    print ("        " +:+ fmt_d v +:+ newline).

(** The order in which the output loop visits the table. *)
Definition output_order (counts_v : gmap key_t Z) : list (key_t * Z) :=
  sorted snd (map_to_list counts_v).

(** One turn of the output loop, with [missing_stacks] and [has_enomem]
    as they stand. *)
Definition output_body (decode : string → option string) (args : Args)
    (b : BPF) (st : Z * bool) (kv : key_t * Z) : py (Z * bool) :=
  let '(missing_stacks, has_enomem) := st in
  let k := kv.1 in
  let '(missing_stacks, has_enomem) :=
    if stack_missing args k then
      (missing_stacks + 1,
       if (kernel_stack_id k =? - ENOMEM) || (user_stack_id k =? - ENOMEM)
       then true else has_enomem)
    else (missing_stacks, has_enomem) in
  print_entry decode args b kv ;;
  mret (missing_stacks, has_enomem).

(** The output loop: the lines printed, and [missing_stacks] and
    [has_enomem] at its end. *)
Definition output_stacks (decode : string → option string) (args : Args)
    (b : BPF) (counts_v : gmap key_t Z) : py (Z * bool) :=
  foldl (λ acc kv, st ← acc; output_body decode args b st kv)
        (mret (0, false)) (output_order counts_v).

(** "check missing": the warning written to [stderr]. *)
Definition missing_warning (missing_stacks : Z) (has_enomem : bool)
    : list string :=
  if 0 <? missing_stacks then
    ["WARNING: " +:+ fmt_d missing_stacks
     +:+ " stack traces could not be displayed."
     +:+ (if has_enomem then " Consider increasing --stack-storage-size."
          else "")]
  else [].

End profile_slower.

(** * Vocabulary of the statements *)

(** The entry a thread leaves in [entryinfo] when probe [i] fires. *)
Definition entry_of (args : funcslower.Args) (h : hook) (i : nat) : entry_t := {|
  e_id := u64 (Z.of_nat i);
  e_start_ns := bpf_ktime_get_ns h;
  e_args :=
    if funcslower.GRAB_ARGS args then
      [PT_REGS_PARM1 (ctx h); PT_REGS_PARM2 (ctx h); PT_REGS_PARM3 (ctx h);
       PT_REGS_PARM4 (ctx h); PT_REGS_PARM5 (ctx h); PT_REGS_PARM6 (ctx h)]
    else []
|}.

Definition entries (es : list (hook * nat)) : list funcslower.probe :=
  map (λ e, funcslower.Entry e.1 e.2) es.


(** No count is negative. *)
Definition counts_nonneg (m : gmap profile_slower.key_t Z) : Prop :=
  map_Forall (λ _ v, 0 ≤ v) m.

(** The probes of a run that are returns. *)
Definition is_return (p : funcslower.probe) : bool :=
  match p with
  | funcslower.Return _ => true
  | funcslower.Entry _ _ => false
  end.

(** The process id in a [pid_tgid] value. *)
Definition tgid_of (pid_tgid : Z) : Z := u32 (pid_tgid ≫ 32).

(** The kernel frames the tracer's [print_stack] works with. *)
Definition tracer_kernel_frames (args : funcslower.Args) (b : BPF)
    (event : funcslower.data_t) : list Z :=
  if funcslower.kernel_stack args
     && (0 <=? funcslower.kernel_stack_id event)
  then stack_traces_walk b (funcslower.kernel_stack_id event)
  else [].

(** The ticks of a run that get as far as the stack capture and build the
    key [key]. *)
Fixpoint captured_ticks_for (args : profile_slower.Args)
    (key : profile_slower.key_t) (es : list profile_slower.event)
    (t : profile_slower.tables) : nat :=
  match es with
  | [] => 0%nat
  | e :: rest =>
      ((match e with
        | profile_slower.Tick h =>
            if profile_slower.captures args h t
               && bool_decide (profile_slower.perf_key args h = key)
            then 1 else 0
        | _ => 0
        end)
       + captured_ticks_for args key rest (profile_slower.fire args t e))%nat
  end.

Definition is_tick (e : profile_slower.event) : bool :=
  match e with
  | profile_slower.Tick _ => true
  | _ => false
  end.

(** An entry of the table whose stack id is [-ENOMEM] and counts as
    missing. *)
Definition enomem_entry (args : profile_slower.Args)
    (kv : profile_slower.key_t * Z) : bool :=
  profile_slower.stack_missing args kv.1
  && ((profile_slower.kernel_stack_id kv.1 =? - ENOMEM)
      || (profile_slower.user_stack_id kv.1 =? - ENOMEM)).

(** Every command name of the entries decodes. *)
Definition names_decode (decode : string → option string)
    (l : list (profile_slower.key_t * Z)) : Prop :=
  Forall (λ kv, is_Some (decode (profile_slower.name kv.1))) l.

(** What the report writes for an entry ends with the entry's count: in
    folded mode it is one line that ends in a space and the count, in
    tree mode its last line is the count line. *)
Definition ends_with_count (args : profile_slower.Args)
    (kv : profile_slower.key_t * Z) (block : list string) : Prop :=
  if profile_slower.folded args
  then ∃ body, block = [body +:+ " " +:+ fmt_d kv.2]
  else ∃ lines, block = lines ++ ["        " +:+ fmt_d kv.2 +:+ newline].

(** The one situation in which [aksym] is reached in the tracer's
    [print_stack]: tree mode, [-U] not given, a kernel stack id that is no
    error, and a kernel frame to print. *)
Definition reaches_aksym (args : funcslower.Args) (b : BPF)
    (event : funcslower.data_t) : bool :=
  negb (funcslower.folded args)
  && negb (funcslower.user_stack args)
  && negb (stack_id_err (funcslower.kernel_stack_id event))
  && negb (bool_decide (tracer_kernel_frames args b event = [])).

(** The Python side reads the fields of a record as the hook wrote them:
    [-a] is not combined with [-U] or [-K]. *)
Definition layouts_agree (args : funcslower.Args) : bool :=
  negb (funcslower.GRAB_ARGS args
        && (funcslower.user_stack args || funcslower.kernel_stack args)).

(** The fields a stack contributes to the tracer's folded line: none if
    the stack was not asked for; the placeholder token if its id is
    negative and not [-EFAULT]; no field for [-EFAULT]; else its frames. *)
Definition stack_fields (requested : bool) (stack_id : Z) (token : string)
    (frames : list string) : list string :=
  if requested then
    if (stack_id <? 0) && negb (stack_id =? - EFAULT) then [token]
    else if stack_id =? - EFAULT then []
    else frames
  else [].

(** * Sample inputs *)

Module samples.

(** A [decode] that accepts the byte strings without a byte above 127,
    as both interpreters do, and turns down the others; on the names used
    below, ["w"] and the single byte 255, it is what either interpreter
    does. *)
Fixpoint ascii_decode (bytes : string) : option string :=
  match bytes with
  | EmptyString => Some EmptyString
  | String c rest =>
      if (nat_of_ascii c <? 128)%nat
      then String c <$> ascii_decode rest else None
  end.

(** A command name that does not decode. *)
Definition bad_name : string := String (ascii_of_nat 255) EmptyString.

Definition regs0 : pt_regs := {|
  PT_REGS_PARM1 := 3; PT_REGS_PARM2 := 4096; PT_REGS_PARM3 := 0;
  PT_REGS_PARM4 := 0; PT_REGS_PARM5 := 0; PT_REGS_PARM6 := 0;
  PT_REGS_RC := 0;
  PT_REGS_IP := 0xffffffff81234567
|}.

(** Thread 7 of process 7, at time [now]. *)
Definition at_time (now : Z) : hook := {|
  ctx := regs0;
  bpf_get_current_pid_tgid := 7 * 2 ^ 32 + 7;
  bpf_ktime_get_ns := now;
  bpf_get_current_comm := "w";
  get_stackid_user := 1;
  get_stackid_kernel := 2
|}.

Definition x86_64 : kconfig := {|
  CONFIG_X86_64 := true;
  __PAGE_OFFSET_BASE := Some 0xffff880000000000;
  __PAGE_OFFSET_BASE_L4 := None;
  __PAGE_OFFSET_BASE_L5 := 0;
  CONFIG_DYNAMIC_MEMORY_LAYOUT := false;
  CONFIG_X86_5LEVEL := false;
  PAGE_OFFSET := 0xffff880000000000
|}.

(** [./funcslower -K vfs_write] *)
Definition tracer_K : funcslower.Args := {|
  funcslower.tgid := None;
  funcslower.arguments := None;
  funcslower.time := false;
  funcslower.timestamp := false;
  funcslower.functions := ["vfs_write"];
  funcslower.user_stack := false;
  funcslower.kernel_stack := true;
  funcslower.folded := false;
  funcslower.duration_ns := 1000000;
  funcslower.kernel := x86_64
|}.

Definition pending (start : Z) : entry_t :=
  {| e_id := 0; e_start_ns := start; e_args := [] |}.

(** Thread 7 entered probe 0 at time 5000. *)
Definition one_pending : gmap Z entry_t :=
  {[ 7 * 2 ^ 32 + 7 := pending 5000 ]}.

(** [./profile_slower vfs_write] *)
Definition profiler : profile_slower.Args := {|
  profile_slower.pid := None;
  profile_slower.user_stacks_only := false;
  profile_slower.kernel_stacks_only := false;
  profile_slower.frequency := 49;
  profile_slower.delimited := false;
  profile_slower.annotations := false;
  profile_slower.folded := false;
  profile_slower.stack_storage_size := 10240;
  profile_slower.duration := 99999999;
  profile_slower.functions := ["vfs_write"];
  profile_slower.kernel := x86_64
|}.

(** A return of thread 7 at time [now] whose instruction pointer is
    [ip]. *)
Definition return_at (now ip : Z) : hook := {|
  ctx := {|
    PT_REGS_PARM1 := 0; PT_REGS_PARM2 := 0; PT_REGS_PARM3 := 0;
    PT_REGS_PARM4 := 0; PT_REGS_PARM5 := 0; PT_REGS_PARM6 := 0;
    PT_REGS_RC := 0;
    PT_REGS_IP := ip
  |};
  bpf_get_current_pid_tgid := 7 * 2 ^ 32 + 7;
  bpf_ktime_get_ns := now;
  bpf_get_current_comm := "w";
  get_stackid_user := 1;
  get_stackid_kernel := 2
|}.

(** Three entries on thread 7, the last one of probe 1 at time 300,
    with no return in between. *)
Definition reentered : gmap Z entry_t :=
  (funcslower.run tracer_K
     (entries [(at_time 100, 0%nat); (at_time 200, 1%nat)]
        ++ [funcslower.Entry (at_time 300) 1])
     (∅, [])).1.

(** Thread 7 enters probe 0 at time 0; the timer ticks at 0.5 ms (too
    early), at 2 ms and at 3 ms; the thread returns; the timer ticks
    once more. *)
Definition ticks : list profile_slower.event :=
  [profile_slower.Entry (at_time 0) 0;
   profile_slower.Tick (at_time 500000);
   profile_slower.Tick (at_time 2000000);
   profile_slower.Tick (at_time 3000000);
   profile_slower.Return (at_time 3000001);
   profile_slower.Tick (at_time 4000000)].

Definition no_tables : profile_slower.tables :=
  {| profile_slower.entryinfo := ∅; profile_slower.counts := ∅ |}.

(** [./profile_slower -F <val> vfs_write] *)
Definition with_frequency (val : string) : profile_slower.argv := {|
  profile_slower.opt_pid := None;
  profile_slower.opt_user_stacks_only := false;
  profile_slower.opt_kernel_stacks_only := false;
  profile_slower.opt_frequency := Some val;
  profile_slower.opt_delimited := false;
  profile_slower.opt_annotations := false;
  profile_slower.opt_folded := false;
  profile_slower.opt_stack_storage_size := None;
  profile_slower.opt_duration := None;
  profile_slower.opt_functions := ["vfs_write"]
|}.

(** A symbolizer that knows two user functions and one kernel function;
    stack 1 is [f1] calling [f2], stack 2 is [k1]. *)
Definition bpf : BPF := {|
  ksym := λ addr, if addr =? 0xffffffff81000100 then "k1" else "[unknown]";
  sym := λ addr _,
    if addr =? 0x1000 then "f1"
    else if addr =? 0x2000 then "f2" else "[unknown]";
  stack_traces_walk := λ stack_id,
    if stack_id =? 1 then [0x2000; 0x1000]
    else if stack_id =? 2 then [0xffffffff81000100] else []
|}.

(** [./funcslower -f -UK c:open] and [./funcslower -UK c:open] *)
Definition tracer_UK (folded_v : bool) : funcslower.Args := {|
  funcslower.tgid := None;
  funcslower.arguments := None;
  funcslower.time := false;
  funcslower.timestamp := false;
  funcslower.functions := ["vfs_write"];
  funcslower.user_stack := true;
  funcslower.kernel_stack := true;
  funcslower.folded := folded_v;
  funcslower.duration_ns := 1000000;
  funcslower.kernel := x86_64
|}.

(** A record of thread [w] with the given stack ids. *)
Definition record (user_stack_id_v kernel_stack_id_v : Z)
    : funcslower.data_t := {|
  funcslower.d_id := 0;
  funcslower.tgid_pid := 7 * 2 ^ 32 + 7;
  funcslower.start_ns := 5000;
  funcslower.d_duration_ns := 2000000;
  funcslower.retval := 0;
  funcslower.name := "w";
  funcslower.user_stack_id := user_stack_id_v;
  funcslower.kernel_stack_id := kernel_stack_id_v;
  funcslower.kernel_ip := 0;
  funcslower.d_args := []
|}.

(** [./profile_slower -f vfs_write], [./profile_slower -d vfs_write], ... *)
Definition profiler_with (folded_v delimited_v : bool)
    : profile_slower.Args := {|
  profile_slower.pid := None;
  profile_slower.user_stacks_only := false;
  profile_slower.kernel_stacks_only := false;
  profile_slower.frequency := 49;
  profile_slower.delimited := delimited_v;
  profile_slower.annotations := false;
  profile_slower.folded := folded_v;
  profile_slower.stack_storage_size := 10240;
  profile_slower.duration := 99999999;
  profile_slower.functions := ["vfs_write"];
  profile_slower.kernel := x86_64
|}.

(** An aggregate key of thread [w] with the given stack ids. *)
Definition key (user_stack_id_v kernel_stack_id_v : Z)
    : profile_slower.key_t := {|
  profile_slower.k_pid := 7;
  profile_slower.kernel_ip := 0;
  profile_slower.kernel_ret_ip := 0;
  profile_slower.user_stack_id := user_stack_id_v;
  profile_slower.kernel_stack_id := kernel_stack_id_v;
  profile_slower.name := "w"
|}.

End samples.

Module more_samples.

(** Thread 9 of process 9, at time [now]. *)
Definition other_thread (now : Z) : hook := {|
  ctx := samples.regs0;
  bpf_get_current_pid_tgid := 9 * 2 ^ 32 + 9;
  bpf_ktime_get_ns := now;
  bpf_get_current_comm := "x";
  get_stackid_user := 3;
  get_stackid_kernel := 4
|}.

(** [./funcslower -p 7 -f -UK c:open] *)
Definition tracer_pid7 : funcslower.Args := {|
  funcslower.tgid := Some 7;
  funcslower.arguments := None;
  funcslower.time := false;
  funcslower.timestamp := false;
  funcslower.functions := ["vfs_write"];
  funcslower.user_stack := true;
  funcslower.kernel_stack := true;
  funcslower.folded := true;
  funcslower.duration_ns := 1000000;
  funcslower.kernel := samples.x86_64
|}.

(** Threads 7 and 9 both enter and return; both calls take 2 ms. *)
Definition two_threads : list funcslower.probe :=
  [funcslower.Entry (samples.at_time 0) 0;
   funcslower.Entry (other_thread 10) 0;
   funcslower.Return (samples.at_time 2000000);
   funcslower.Return (other_thread 2000010);
   funcslower.Return (samples.at_time 2000020)].

(** [./funcslower -a 2 c:open] *)
Definition tracer_a2 : funcslower.Args := {|
  funcslower.tgid := None;
  funcslower.arguments := Some 2;
  funcslower.time := false;
  funcslower.timestamp := false;
  funcslower.functions := ["vfs_write"];
  funcslower.user_stack := false;
  funcslower.kernel_stack := false;
  funcslower.folded := false;
  funcslower.duration_ns := 1000000;
  funcslower.kernel := samples.x86_64
|}.

(** [./profile_slower -U vfs_write] *)
Definition profiler_U : profile_slower.Args := {|
  profile_slower.pid := None;
  profile_slower.user_stacks_only := true;
  profile_slower.kernel_stacks_only := false;
  profile_slower.frequency := 49;
  profile_slower.delimited := false;
  profile_slower.annotations := false;
  profile_slower.folded := true;
  profile_slower.stack_storage_size := 10240;
  profile_slower.duration := 99999999;
  profile_slower.functions := ["vfs_write"];
  profile_slower.kernel := samples.x86_64
|}.

(** A table with one good entry and two whose stacks were missed. *)
Definition some_counts : gmap profile_slower.key_t Z :=
  {[ samples.key 1 2 := 5;
     samples.key 1 (- ENOMEM) := 3;
     samples.key (-17) 2 := 1 ]}.

(** [./funcslower -f vfs_write] *)
Definition tracer_f : funcslower.Args := {|
  funcslower.tgid := None;
  funcslower.arguments := None;
  funcslower.time := false;
  funcslower.timestamp := false;
  funcslower.functions := ["vfs_write"];
  funcslower.user_stack := false;
  funcslower.kernel_stack := false;
  funcslower.folded := true;
  funcslower.duration_ns := 1000000;
  funcslower.kernel := samples.x86_64
|}.

(** The columns of the tree-mode line, cut down to name and function. *)
Definition columns (earliest_ts : Z) (event : funcslower.data_t)
    (name_v function : string) : string :=
  name_v +:+ " " +:+ function.

End more_samples.

(** * Properties of the tracer's hooks *)

Lemma u64_small z : 0 ≤ z < 2 ^ 64 → u64 z = z.
Proof. intros Hz. unfold u64. by apply Z.mod_small. Qed.

Lemma u64_range z : 0 ≤ u64 z < 2 ^ 64.
Proof. unfold u64. apply Z.mod_pos_bound. lia. Qed.

(** What [trace_return] does once the lookup has found [entryp]. *)
Lemma tracer_return_found args h entryinfo entryp :
  entryinfo !! bpf_get_current_pid_tgid h = Some entryp →
  let delta_ns := u64 (bpf_ktime_get_ns h - e_start_ns entryp) in
  (funcslower.trace_return args h entryinfo).1
    = delete (bpf_get_current_pid_tgid h) entryinfo
  ∧ ((funcslower.trace_return args h entryinfo).2 = None
       ∧ delta_ns < funcslower.DURATION_NS args
     ∨ (∃ data, (funcslower.trace_return args h entryinfo).2 = Some data
          ∧ funcslower.DURATION_NS args ≤ delta_ns
          ∧ funcslower.d_id data = e_id entryp
          ∧ funcslower.start_ns data = e_start_ns entryp
          ∧ funcslower.d_duration_ns data = delta_ns
          ∧ funcslower.d_args data
              = (if funcslower.GRAB_ARGS args then e_args entryp else []))).
Proof.
  intros Hlook delta_ns. unfold funcslower.trace_return. rewrite Hlook.
  fold delta_ns.
  destruct (Z.ltb_spec delta_ns (funcslower.DURATION_NS args)) as [Hlt|Hge];
    simpl.
  - split; [done|]. left. done.
  - split; [done|]. right. eexists. split; [done|]. done.
Qed.

(** C1: on a return that finds its pending entry, a record is submitted
    exactly when the computed duration, the [u64] difference between the
    return time and the stored start time, is at least the configured
    threshold in nanoseconds.  A call that lasts exactly the threshold is
    reported; one that lasts one nanosecond less is not. *)
Theorem tracer_reports_iff_threshold_reached
    (args : funcslower.Args) (h : hook)
    (entryinfo : gmap Z entry_t) (entryp : entry_t) :
  entryinfo !! bpf_get_current_pid_tgid h = Some entryp →
  0 ≤ funcslower.duration_ns args < 2 ^ 64 →
  let delta_ns := u64 (bpf_ktime_get_ns h - e_start_ns entryp) in
  let submitted := (funcslower.trace_return args h entryinfo).2 in
  (is_Some submitted ↔ funcslower.duration_ns args ≤ delta_ns)
  ∧ (∀ data, submitted = Some data → funcslower.d_duration_ns data = delta_ns)
  ∧ (bpf_ktime_get_ns h - e_start_ns entryp = funcslower.duration_ns args →
     is_Some submitted)
  ∧ (0 < funcslower.duration_ns args →
     bpf_ktime_get_ns h - e_start_ns entryp = funcslower.duration_ns args - 1 →
     submitted = None).
Proof.
  intros Hlook Hthr delta_ns submitted.
  destruct (tracer_return_found args h entryinfo entryp Hlook)
    as [_ Hcases].
  fold delta_ns in Hcases. fold submitted in Hcases.
  assert (HD : funcslower.DURATION_NS args = funcslower.duration_ns args).
  { unfold funcslower.DURATION_NS, u64_of_literal. by apply u64_small. }
  rewrite HD in Hcases.
  assert (Hiff : is_Some submitted ↔ funcslower.duration_ns args ≤ delta_ns).
  { destruct Hcases as [[Hnone Hlt]|(data & Hsome & Hge & _)].
    - rewrite Hnone. split; [intros [? ?]; done | lia].
    - rewrite Hsome. split; [done | eauto]. }
  split; [exact Hiff|]. split; [|split].
  - intros data Hdata.
    destruct Hcases as [[Hnone _]|(data' & Hsome & _ & _ & _ & Hdur & _)];
      congruence.
  - intros Heq. apply Hiff. unfold delta_ns. rewrite Heq.
    rewrite u64_small; lia.
  - intros Hpos Heq.
    destruct submitted eqn:Hs; [|done].
    assert (Hle : funcslower.duration_ns args ≤ delta_ns) by (apply Hiff; eauto).
    unfold delta_ns in Hle. rewrite Heq in Hle.
    rewrite u64_small in Hle; lia.
Qed.

(** The boundary of C1 at the default threshold of 1 ms. *)
Lemma tracer_reports_iff_threshold_reached_witness :
  is_Some (funcslower.trace_return samples.tracer_K
             (samples.at_time 1005000) samples.one_pending).2
  ∧ (funcslower.trace_return samples.tracer_K
       (samples.at_time 1004999) samples.one_pending).2 = None.
Proof.
  split.
  - apply (tracer_reports_iff_threshold_reached samples.tracer_K
             (samples.at_time 1005000) samples.one_pending
             (samples.pending 5000)).
    + reflexivity.
    + simpl. lia.
    + reflexivity.
  - apply (tracer_reports_iff_threshold_reached samples.tracer_K
             (samples.at_time 1004999) samples.one_pending
             (samples.pending 5000)).
    + reflexivity.
    + simpl. lia.
    + simpl. lia.
    + reflexivity.
Defined.

Lemma tracer_entry_insert args h i (entryinfo : gmap Z entry_t) :
  funcslower.TGID_FILTER args (u32 (bpf_get_current_pid_tgid h ≫ 32)) = false →
  funcslower.trace_ args i h entryinfo
    = <[bpf_get_current_pid_tgid h := entry_of args h i]> entryinfo.
Proof.
  intros Hf. unfold funcslower.trace_, funcslower.trace_entry.
  by rewrite Hf.
Qed.

Lemma tracer_run_app args ps qs st :
  funcslower.run args (ps ++ qs) st
    = funcslower.run args qs (funcslower.run args ps st).
Proof. unfold funcslower.run. apply foldl_app. Qed.

(** Entries of one thread pile up on a single slot: the last one wins. *)
Lemma tracer_entries_last_wins args t earlier h_last i_last
    (entryinfo : gmap Z entry_t) out :
  Forall (λ e : hook * nat, bpf_get_current_pid_tgid e.1 = t) earlier →
  bpf_get_current_pid_tgid h_last = t →
  funcslower.TGID_FILTER args (u32 (t ≫ 32)) = false →
  funcslower.run args (entries earlier ++ [funcslower.Entry h_last i_last])
      (entryinfo, out)
    = (<[t := entry_of args h_last i_last]> entryinfo, out).
Proof.
  intros Hall Hlast Hf. revert entryinfo.
  induction Hall as [|[h i] earlier Hh _ IH]; intros entryinfo.
  - simpl. rewrite tracer_entry_insert; rewrite Hlast; done.
  - simpl in *. rewrite tracer_entry_insert by (by rewrite Hh).
    rewrite IH. by rewrite Hh, insert_insert_eq.
Qed.

(** C2: after any number of entries on one thread, none of them from
    another thread, the entry the return finds is the one stored by the
    most recent entry (probe id, start time stamp, captured arguments).
    The return works from that entry: the duration it computes counts
    from the latest start, a record is submitted exactly when that
    duration reaches the threshold, and the record then carries the
    latest probe id, start and arguments.  Once the return has run the
    table holds nothing for the thread (nothing at all, if it held nothing
    before). *)
Theorem tracer_return_resolves_latest_entry
    (args : funcslower.Args) (entryinfo : gmap Z entry_t)
    (earlier : list (hook * nat)) (h_last : hook) (i_last : nat) (r : hook) :
  let t := bpf_get_current_pid_tgid r in
  Forall (λ e : hook * nat, bpf_get_current_pid_tgid e.1 = t) earlier →
  bpf_get_current_pid_tgid h_last = t →
  funcslower.TGID_FILTER args (u32 (t ≫ 32)) = false →
  let pending :=
    (funcslower.run args
       (entries earlier ++ [funcslower.Entry h_last i_last])
       (entryinfo, [])).1 in
  let latest := entry_of args h_last i_last in
  let after := funcslower.trace_return args r pending in
  let delta_ns := u64 (bpf_ktime_get_ns r - e_start_ns latest) in
  pending !! t = Some latest
  ∧ after.1 = delete t entryinfo
  ∧ after.1 !! t = None
  ∧ (entryinfo = ∅ → after.1 = ∅)
  ∧ (∀ data, after.2 = Some data →
       funcslower.d_id data = e_id latest
       ∧ funcslower.start_ns data = e_start_ns latest
       ∧ funcslower.d_args data = e_args latest)
  ∧ (delta_ns < funcslower.DURATION_NS args → after.2 = None)
  ∧ (funcslower.DURATION_NS args ≤ delta_ns →
     ∃ data,
       after.2 = Some data
       ∧ funcslower.d_id data = e_id latest
       ∧ funcslower.start_ns data = e_start_ns latest
       ∧ funcslower.d_args data = e_args latest
       ∧ funcslower.d_duration_ns data = delta_ns).
Proof.
  intros t Hall Hlast Hf pending latest after delta_ns.
  assert (Hp : pending = <[t := latest]> entryinfo).
  { unfold pending. by rewrite (tracer_entries_last_wins args t). }
  assert (Hlook : pending !! t = Some latest).
  { rewrite Hp. apply lookup_insert_eq. }
  destruct (tracer_return_found args r pending latest Hlook)
    as [Htbl Hcases].
  fold after in Htbl, Hcases. fold t in Htbl. fold delta_ns in Hcases.
  assert (Hdel : after.1 = delete t entryinfo).
  { rewrite Htbl, Hp. apply delete_insert_eq. }
  assert (Hargs_latest :
    (if funcslower.GRAB_ARGS args then e_args latest else []) = e_args latest).
  { unfold latest, entry_of. simpl. by destruct (funcslower.GRAB_ARGS args). }
  split; [exact Hlook|]. split; [exact Hdel|].
  split; [|split; [|split; [|split]]].
  - rewrite Hdel. apply lookup_delete_eq.
  - intros ->. rewrite Hdel. apply delete_empty.
  - intros data Hdata.
    destruct Hcases as [[Hnone _]|(data' & Hsome & _ & Hid & Hst & _ & Hargs)];
      [congruence|].
    assert (data' = data) as -> by congruence.
    split; [done|]. split; [done|]. by rewrite Hargs.
  - intros Hlt.
    destruct Hcases as [[Hnone _]|(data' & _ & Hge & _)]; [done | lia].
  - intros Hge.
    destruct Hcases as [[_ Hlt]|(data & Hsome & _ & Hid & Hst & Hdur & Hargs)];
      [lia|].
    exists data. split; [done|]. split; [done|]. split; [done|].
    split; [by rewrite Hargs | done].
Qed.

Lemma tracer_return_resolves_latest_entry_witness :
  samples.reentered !! (7 * 2 ^ 32 + 7)
    = Some {| e_id := 1; e_start_ns := 300; e_args := [] |}
  ∧ (funcslower.trace_return samples.tracer_K (samples.at_time 2000000)
       samples.reentered).1 = ∅
  ∧ ∃ data,
      (funcslower.trace_return samples.tracer_K (samples.at_time 2000000)
         samples.reentered).2 = Some data
      ∧ funcslower.d_id data = 1
      ∧ funcslower.start_ns data = 300
      ∧ funcslower.d_duration_ns data = 1999700.
Proof.
  destruct (tracer_return_resolves_latest_entry samples.tracer_K ∅
              [(samples.at_time 100, 0%nat); (samples.at_time 200, 1%nat)]
              (samples.at_time 300) 1 (samples.at_time 2000000))
    as (Hlatest & _ & _ & Hempty & _ & _ & Hrecord).
  - repeat constructor.
  - reflexivity.
  - reflexivity.
  - split; [exact Hlatest|]. split; [exact (Hempty eq_refl)|].
    destruct Hrecord as (data & Hdata & Hid & Hstart & _ & Hduration);
      [by vm_compute|].
    exists data. split; [exact Hdata|].
    split; [exact Hid|]. split; [exact Hstart | exact Hduration].
Defined.

(** C3: a return on a thread with no pending entry is dropped.  The
    tracer's hook submits no record and returns the table it was given,
    so a run's state (table and submitted records) is as before; the
    profiler's hook returns both of its tables as they were.  The hooks
    are total functions: there is no failing outcome. *)
Theorem return_without_entry_changes_nothing
    (args : funcslower.Args) (h : hook)
    (entryinfo : gmap Z entry_t) (submitted : list funcslower.data_t)
    (t : profile_slower.tables) :
  (entryinfo !! bpf_get_current_pid_tgid h = None →
     funcslower.trace_return args h entryinfo = (entryinfo, None)
     ∧ funcslower.fire args (entryinfo, submitted) (funcslower.Return h)
         = (entryinfo, submitted))
  ∧ (profile_slower.entryinfo t !! bpf_get_current_pid_tgid h = None →
     profile_slower.trace_return h t = t).
Proof.
  split.
  - intros Hnone.
    assert (Hret : funcslower.trace_return args h entryinfo = (entryinfo, None)).
    { unfold funcslower.trace_return. by rewrite Hnone. }
    split; [exact Hret|].
    unfold funcslower.fire. simpl. rewrite Hret. simpl.
    by rewrite app_nil_r.
  - intros Hnone. unfold profile_slower.trace_return. by rewrite Hnone.
Qed.

Lemma return_without_entry_changes_nothing_witness :
  funcslower.trace_return samples.tracer_K (samples.at_time 900)
      (∅ : gmap Z entry_t) = (∅, None)
  ∧ profile_slower.trace_return (samples.at_time 900)
      {| profile_slower.entryinfo := ∅; profile_slower.counts := ∅ |}
    = {| profile_slower.entryinfo := ∅; profile_slower.counts := ∅ |}.
Proof.
  destruct (return_without_entry_changes_nothing samples.tracer_K
              (samples.at_time 900) ∅ []
              {| profile_slower.entryinfo := ∅; profile_slower.counts := ∅ |})
    as [Htracer Hprofiler].
  split.
  - apply Htracer. reflexivity.
  - apply Hprofiler. reflexivity.
Defined.

(** * The kernel instruction pointer *)

(** C7, as stated, fails at the boundary itself: with the instruction
    pointer equal to [page_offset] and a kernel stack id of 2, the record
    carries a zero [kernel_ip] although the pointer is not below the
    boundary. *)
Lemma kernel_ip_zero_at_the_boundary :
  ∃ data,
    (funcslower.trace_return samples.tracer_K
       (samples.return_at 2000000 0xffff880000000000)
       samples.one_pending).2 = Some data
    ∧ 0 ≤ funcslower.kernel_stack_id data
    ∧ funcslower.kernel_ip data = 0
    ∧ ¬ (0xffff880000000000 < page_offset (funcslower.kernel samples.tracer_K))
    ∧ ¬ (funcslower.kernel_ip data = 0
         ↔ PT_REGS_IP (ctx (samples.return_at 2000000 0xffff880000000000))
             < page_offset (funcslower.kernel samples.tracer_K)).
Proof.
  eexists. split; [reflexivity|].
  split; [by vm_compute|]. split; [reflexivity|].
  split; [by vm_compute|].
  intros [Hzero _]. specialize (Hzero eq_refl). by vm_compute in Hzero.
Qed.

(** The correction both hooks apply to the instruction pointer. *)
Lemma ip_correction (po ip : Z) :
  0 ≤ po →
  let fixed := if po <? ip then ip else 0 in
  (fixed = 0 ↔ ip ≤ po) ∧ (po < ip → fixed = ip).
Proof.
  intros Hpo fixed. unfold fixed.
  destruct (Z.ltb_spec po ip); split; intros; try split; intros; lia.
Qed.

(** C7, amended: when the kernel stack id is non-negative, the corrected
    kernel instruction pointer is zero exactly when the captured pointer
    is at or below the boundary [page_offset], and is the captured
    pointer when that lies above the boundary.  This holds for the
    record [trace_return] submits and for the key [do_perf_event]
    counts. *)
Theorem kernel_ip_zero_iff_at_or_below_boundary
    (args : funcslower.Args) (h : hook) (entryinfo : gmap Z entry_t)
    (pargs : profile_slower.Args) :
  (0 ≤ page_offset (funcslower.kernel args) →
   funcslower.KERNEL_STACKS args = true →
   ∀ data, (funcslower.trace_return args h entryinfo).2 = Some data →
     0 ≤ funcslower.kernel_stack_id data →
     (funcslower.kernel_ip data = 0
        ↔ PT_REGS_IP (ctx h) ≤ page_offset (funcslower.kernel args))
     ∧ (page_offset (funcslower.kernel args) < PT_REGS_IP (ctx h) →
        funcslower.kernel_ip data = PT_REGS_IP (ctx h)))
  ∧ (0 ≤ page_offset (profile_slower.kernel pargs) →
     let key := profile_slower.perf_key pargs h in
     0 ≤ profile_slower.kernel_stack_id key →
     (profile_slower.kernel_ip key = 0
        ↔ PT_REGS_IP (ctx h) ≤ page_offset (profile_slower.kernel pargs))
     ∧ (page_offset (profile_slower.kernel pargs) < PT_REGS_IP (ctx h) →
        profile_slower.kernel_ip key = PT_REGS_IP (ctx h))).
Proof.
  split.
  - intros Hpo HK data Hdata Hkid.
    unfold funcslower.trace_return in Hdata.
    destruct (entryinfo !! bpf_get_current_pid_tgid h) as [entryp|];
      [|done].
    simpl in Hdata.
    destruct (_ <? funcslower.DURATION_NS args); [done|].
    simpl in Hdata. injection Hdata as <-. simpl in *.
    rewrite HK in *. simpl in *.
    apply Z.leb_le in Hkid. rewrite Hkid.
    by apply ip_correction.
  - intros Hpo key Hkid. unfold key, profile_slower.perf_key in *.
    simpl in *. apply Z.leb_le in Hkid. rewrite Hkid.
    by apply ip_correction.
Qed.

Lemma kernel_ip_zero_iff_at_or_below_boundary_witness :
  (∃ data,
     (funcslower.trace_return samples.tracer_K
        (samples.return_at 2000000 0xffff880000000000)
        samples.one_pending).2 = Some data
     ∧ (funcslower.kernel_ip data = 0
        ↔ 0xffff880000000000 ≤ 0xffff880000000000))
  ∧ profile_slower.kernel_ip
      (profile_slower.perf_key samples.profiler
         (samples.return_at 2000000 0xffffffff81000000))
    = 0xffffffff81000000.
Proof.
  destruct (kernel_ip_zero_iff_at_or_below_boundary samples.tracer_K
              (samples.return_at 2000000 0xffff880000000000)
              samples.one_pending samples.profiler)
    as [Htracer _].
  destruct (kernel_ip_zero_iff_at_or_below_boundary samples.tracer_K
              (samples.return_at 2000000 0xffffffff81000000)
              samples.one_pending samples.profiler)
    as [_ Hprofiler].
  split.
  - eexists. split; [reflexivity|].
    apply Htracer; [by vm_compute | reflexivity | reflexivity | by vm_compute].
  - apply Hprofiler; by vm_compute.
Defined.

(** * The profiler's counts *)

Lemma total_empty : profile_slower.total ∅ = 0.
Proof. unfold profile_slower.total. apply map_fold_empty. Qed.

Lemma total_insert_fresh (m : gmap profile_slower.key_t Z) k v :
  m !! k = None →
  profile_slower.total (<[k := v]> m) = v + profile_slower.total m.
Proof.
  intros Hk. unfold profile_slower.total.
  apply (map_fold_insert_L (λ _ v acc, v + acc)); [|done].
  intros. lia.
Qed.

Lemma total_delete (m : gmap profile_slower.key_t Z) k v :
  m !! k = Some v →
  profile_slower.total m = v + profile_slower.total (delete k m).
Proof.
  intros Hk. unfold profile_slower.total.
  apply (map_fold_delete_L (λ _ v acc, v + acc)); [|done].
  intros. lia.
Qed.

(** Storing [v] under [k] changes the sum by [v] minus what was there. *)
Lemma total_insert (m : gmap profile_slower.key_t Z) k v :
  profile_slower.total (<[k := v]> m)
    = profile_slower.total m - default 0 (m !! k) + v.
Proof.
  destruct (m !! k) as [old|] eqn:Hk; simpl.
  - rewrite <- insert_delete_eq.
    rewrite total_insert_fresh by apply lookup_delete_eq.
    rewrite (total_delete m k old Hk). lia.
  - rewrite total_insert_fresh by done. lia.
Qed.

Lemma total_nonneg m : counts_nonneg m → 0 ≤ profile_slower.total m.
Proof.
  induction m as [|k v m Hk _ IH] using map_first_key_ind; intros Hm.
  - by rewrite total_empty.
  - rewrite total_insert_fresh by done.
    apply map_Forall_insert in Hm as [Hv Hm]; [|done].
    specialize (IH Hm). lia.
Qed.

Lemma count_le_total m k v :
  counts_nonneg m → m !! k = Some v → 0 ≤ v ≤ profile_slower.total m.
Proof.
  intros Hm Hk. split; [by apply (Hm k)|].
  rewrite (total_delete m k v Hk).
  assert (0 ≤ profile_slower.total (delete k m)); [|lia].
  apply total_nonneg. intros j w Hj.
  apply lookup_delete_Some in Hj as [_ Hj]. by apply (Hm j).
Qed.

(** A tick that does not reach the stack capture leaves both tables as
    they are; one that does adds one to the count under its key. *)
Lemma do_perf_event_cases args h t :
  (profile_slower.captures args h t = false
     ∧ profile_slower.do_perf_event args h t = t)
  ∨ (profile_slower.captures args h t = true
     ∧ profile_slower.do_perf_event args h t
       = {| profile_slower.entryinfo := profile_slower.entryinfo t;
            profile_slower.counts :=
              <[profile_slower.perf_key args h :=
                  u64 (default 0 (profile_slower.counts t
                                    !! profile_slower.perf_key args h) + 1)]>
                (profile_slower.counts t) |}).
Proof.
  unfold profile_slower.captures, profile_slower.do_perf_event.
  destruct (profile_slower.THREAD_FILTER args _); simpl; [|by left].
  destruct (profile_slower.entryinfo t !! _) as [entryp|]; [|by left].
  destruct (_ <? profile_slower.DURATION_NS); simpl; [by left | by right].
Qed.

Lemma profiler_counts_invariant args es : ∀ t,
  counts_nonneg (profile_slower.counts t) →
  profile_slower.total (profile_slower.counts t)
    + Z.of_nat (profile_slower.captured_ticks args es t) < 2 ^ 64 →
  counts_nonneg (profile_slower.counts (profile_slower.run args es t))
  ∧ profile_slower.total (profile_slower.counts (profile_slower.run args es t))
    = profile_slower.total (profile_slower.counts t)
      + Z.of_nat (profile_slower.captured_ticks args es t).
Proof.
  induction es as [|e es IH]; intros t Hnn Hbound.
  - simpl in *. split; [done | lia].
  - change (profile_slower.run args (e :: es) t)
      with (profile_slower.run args es (profile_slower.fire args t e)).
    assert (Hprobe : ∀ t',
      profile_slower.counts t' = profile_slower.counts t →
      profile_slower.captured_ticks args (e :: es) t
        = profile_slower.captured_ticks args es t' →
      counts_nonneg (profile_slower.counts (profile_slower.run args es t'))
      ∧ profile_slower.total
          (profile_slower.counts (profile_slower.run args es t'))
        = profile_slower.total (profile_slower.counts t)
          + Z.of_nat (profile_slower.captured_ticks args (e :: es) t)).
    { intros t' Hc Hn. rewrite Hn in *. rewrite <- Hc in *. by apply IH. }
    destruct e as [h i|h|h].
    + apply Hprobe; reflexivity.
    + apply Hprobe; [|reflexivity].
      simpl. unfold profile_slower.trace_return.
      by destruct (profile_slower.entryinfo t !! _).
    + cbn [profile_slower.captured_ticks profile_slower.fire] in *.
      destruct (do_perf_event_cases args h t) as [[Hcap Hdo]|[Hcap Hdo]];
        rewrite Hcap in *; rewrite Hdo in *.
      * destruct (IH t) as [H1 H2]; done.
      * set (key := profile_slower.perf_key args h) in *.
        set (old := default 0 (profile_slower.counts t !! key)) in *.
        assert (Hold : 0 ≤ old ≤ profile_slower.total (profile_slower.counts t)).
        { unfold old. destruct (profile_slower.counts t !! key) eqn:Hk; simpl.
          - by apply (count_le_total _ key).
          - split; [lia | by apply total_nonneg]. }
        assert (Hwrap : u64 (old + 1) = old + 1) by (apply u64_small; lia).
        rewrite Hwrap in *.
        set (t' := {| profile_slower.entryinfo := profile_slower.entryinfo t;
                      profile_slower.counts :=
                        <[key := old + 1]> (profile_slower.counts t) |}) in *.
        assert (Ht' : profile_slower.total (profile_slower.counts t')
                      = profile_slower.total (profile_slower.counts t) + 1).
        { unfold t'. simpl. rewrite total_insert. fold old. lia. }
        destruct (IH t') as [H1 H2].
        -- unfold t'. simpl. apply map_Forall_insert_2; [lia | done].
        -- rewrite Ht'. lia.
        -- split; [done|]. rewrite H2, Ht'. lia.
Qed.

(** C5: starting from an empty [counts] table, the counts at the end of a
    run add up to the number of ticks that passed the thread filter and
    went on to the stack capture (whose result, an id or a negative
    sentinel, goes into the key as it is): each such tick adds one to
    exactly one count.  The counters are [u64], so the run is taken to
    have fewer than [2 ^ 64] such ticks. *)
Theorem profiler_counts_sum_to_captured_ticks
    (args : profile_slower.Args) (es : list profile_slower.event)
    (pending : gmap Z entry_t) :
  let t0 := {| profile_slower.entryinfo := pending;
               profile_slower.counts := ∅ |} in
  Z.of_nat (profile_slower.captured_ticks args es t0) < 2 ^ 64 →
  profile_slower.total (profile_slower.counts (profile_slower.run args es t0))
    = Z.of_nat (profile_slower.captured_ticks args es t0).
Proof.
  intros t0 Hbound.
  destruct (profiler_counts_invariant args es t0) as [_ Hsum].
  - unfold t0. simpl. apply map_Forall_empty.
  - unfold t0 at 1. simpl. rewrite total_empty. lia.
  - rewrite Hsum. unfold t0 at 1. simpl. rewrite total_empty. lia.
Qed.

Lemma profiler_counts_sum_to_captured_ticks_witness :
  profile_slower.total
    (profile_slower.counts
       (profile_slower.run samples.profiler samples.ticks samples.no_tables))
  = 2.
Proof.
  etrans.
  - apply (profiler_counts_sum_to_captured_ticks samples.profiler
             samples.ticks ∅).
    by vm_compute.
  - by vm_compute.
Defined.

(** * The order of the report *)

Section sorted_by_key.
Context {A : Type} (key : A → Z).

Lemma insert_by_perm x l : insert_by key x l ≡ₚ x :: l.
Proof.
  induction l as [|y l IH]; simpl; [done|].
  destruct (key x <=? key y); [done|].
  rewrite IH. apply Permutation_swap.
Qed.

Lemma sorted_perm l : sorted key l ≡ₚ l.
Proof.
  induction l as [|x l IH]; simpl; [done|].
  unfold sorted in *. simpl. by rewrite insert_by_perm, IH.
Qed.



End sorted_by_key.

(** ** What the print loops write *)

Lemma py_for_print {A} (f : A → string) (l : list A) :
  py_for l (λ a, print (f a)) = (map f l, inr tt).
Proof.
  induction l as [|a l IH]; simpl; [done|].
  rewrite IH. reflexivity.
Qed.

Lemma py_bind_ok {A B} (out : list string) (a : A) (k : A → py B) :
  mbind k ((out, inr a) : py A) = (out ++ (k a).1, (k a).2).
Proof. unfold mbind, py_bind. by destruct (k a). Qed.

Lemma py_seq_out {A B} (m : py A) (k : py B) (a : A) :
  m.2 = inr a → (m ;; k) = (m.1 ++ k.1, k.2).
Proof.
  destruct m as [out r]. intros Hr. simpl in Hr. subst r.
  exact (py_bind_ok out a (λ _, k)).
Qed.

Lemma py_bind_raise {A B} (out : list string) (e : exn) (k : A → py B) :
  mbind k ((out, inl e) : py A) = (out, inl e).
Proof. reflexivity. Qed.

(** The profiler's [print_entry] returns when the name decodes, and what
    it has written then ends with the count; it raises when the name does
    not decode. *)
Lemma profiler_print_entry_cases decode args b kv :
  match decode (profile_slower.name kv.1) with
  | Some _ =>
      (profile_slower.print_entry decode args b kv).2 = inr tt
      ∧ ends_with_count args kv
          (profile_slower.print_entry decode args b kv).1
  | None =>
      (profile_slower.print_entry decode args b kv).2
        = inl UnicodeDecodeError
  end.
Proof.
  destruct kv as [k v]. unfold profile_slower.print_entry, ends_with_count.
  unfold py_decode. simpl fst. simpl snd.
  destruct (decode (profile_slower.name k)) as [text|];
    destruct (profile_slower.folded args).
  - split; [done|]. eexists. reflexivity.
  - rewrite !py_for_print.
    destruct (profile_slower.need_delimiter args && _); simpl.
    + split; [done|].
      match goal with |- ∃ lines, ?a ++ ?b :: ?c ++ [?x; ?y] = _ =>
        exists (a ++ b :: c ++ [x]) end.
      rewrite <- !app_assoc. simpl. rewrite <- !app_assoc. done.
    + split; [done|].
      match goal with |- ∃ lines, ?a ++ ?c ++ [?x; ?y] = _ =>
        exists (a ++ c ++ [x]) end.
      rewrite <- !app_assoc. done.
  - done.
  - rewrite !py_for_print. by destruct (profile_slower.need_delimiter args && _).
Qed.

(** One turn of the output loop writes what [print_entry] writes, and
    ends as [print_entry] ends. *)
Lemma output_body_out decode args b st kv :
  (profile_slower.output_body decode args b st kv).1
    = (profile_slower.print_entry decode args b kv).1
  ∧ match (profile_slower.print_entry decode args b kv).2 with
    | inr _ =>
        (profile_slower.output_body decode args b st kv).2
        = inr (st.1 + (if profile_slower.stack_missing args kv.1
                       then 1 else 0),
               st.2 || enomem_entry args kv)
    | inl e => (profile_slower.output_body decode args b st kv).2 = inl e
    end.
Proof.
  destruct st as [missing enomem]. unfold profile_slower.output_body.
  unfold enomem_entry. simpl fst. simpl snd.
  destruct (profile_slower.print_entry decode args b kv) as [out [e|[]]].
  - by destruct (profile_slower.stack_missing args kv.1).
  - destruct (profile_slower.stack_missing args kv.1);
      rewrite (py_bind_ok out tt); simpl; rewrite app_nil_r.
    + split; [done|]. by destruct (_ || _), enomem.
    + split; [done|]. by rewrite Z.add_0_r, orb_false_r.
Qed.

(** Once an exception is on its way the rest of the loop is skipped. *)
Lemma output_loop_raised decode args b (l : list (profile_slower.key_t * Z))
    out e :
  foldl (λ acc kv, st ← acc; profile_slower.output_body decode args b st kv)
        ((out, inl e) : py (Z * bool)) l
  = (out, inl e).
Proof. induction l as [|kv l IH]; [done|]. simpl. exact IH. Qed.

(** The output loop, entry by entry: it writes the block of every entry up
    to the first one whose name does not decode, then what was written
    for that one before the exception, and stops there. *)
Lemma output_loop_out decode args b (l : list (profile_slower.key_t * Z)) :
  ∀ out st,
  ∃ printed rest,
    l = printed ++ rest
    ∧ names_decode decode printed
    ∧ (foldl (λ acc kv,
                st ← acc; profile_slower.output_body decode args b st kv)
             ((out, inr st) : py (Z * bool)) l).1
      = out
        ++ concat (map (λ kv, (profile_slower.print_entry decode args b kv).1)
                       printed)
        ++ match rest with
           | [] => []
           | kv :: _ => (profile_slower.print_entry decode args b kv).1
           end
    ∧ match rest with
      | [] =>
          (foldl (λ acc kv,
                    st ← acc; profile_slower.output_body decode args b st kv)
                 ((out, inr st) : py (Z * bool)) l).2
          = inr (st.1 + Z.of_nat (length (filter
                    (λ kv, profile_slower.stack_missing args kv.1 = true) l)),
                 st.2 || existsb (enomem_entry args) l)
      | kv :: _ =>
          decode (profile_slower.name kv.1) = None
          ∧ (foldl (λ acc kv,
                      st ← acc;
                      profile_slower.output_body decode args b st kv)
                   ((out, inr st) : py (Z * bool)) l).2
            = inl UnicodeDecodeError
      end.
Proof.
  induction l as [|kv l IH]; intros out st; cbn [foldl].
  - exists [], []. split; [done|]. split; [constructor|].
    simpl. rewrite !app_nil_r. split; [done|].
    destruct st as [m e]. simpl. by rewrite Z.add_0_r, orb_false_r.
  - rewrite py_bind_ok.
    destruct (output_body_out decode args b st kv) as [Hout Hend].
    pose proof (profiler_print_entry_cases decode args b kv) as Hcases.
    destruct (profile_slower.output_body decode args b st kv) as [out1 r1].
    simpl in Hout, Hend. subst out1. cbn [fst snd].
    destruct (decode (profile_slower.name kv.1)) as [text|] eqn:Hname.
    + destruct Hcases as [Hret _]. rewrite Hret in Hend. subst r1.
      destruct (IH (out ++ (profile_slower.print_entry decode args b kv).1)
                  (st.1 + (if profile_slower.stack_missing args kv.1
                           then 1 else 0),
                   st.2 || enomem_entry args kv))
        as (printed & rest & Hl & Hdec & Hlines & Hrest).
      exists (kv :: printed), rest. split; [by rewrite Hl|].
      split; [constructor; [by rewrite Hname | done]|].
      split; [rewrite Hlines; simpl; by rewrite <- !app_assoc|].
      destruct rest as [|kv' rest]; [|done].
      rewrite Hrest. cbn [fst snd existsb].
      destruct (profile_slower.stack_missing args kv.1) eqn:Hm.
      * rewrite filter_cons_True by done. simpl length.
        f_equal. f_equal; [lia | by rewrite orb_assoc].
      * rewrite filter_cons_False by (by rewrite Hm).
        f_equal. f_equal; [lia | by rewrite orb_assoc].
    + rewrite Hcases in Hend. subst r1. rewrite output_loop_raised.
      exists [], (kv :: l). split; [done|]. split; [constructor|].
      split; [done|]. done.
Qed.

(** With every name decoding, the loop runs to its end. *)
Lemma output_loop_all decode args b (l : list (profile_slower.key_t * Z)) out st :
  names_decode decode l →
  foldl (λ acc kv, st ← acc; profile_slower.output_body decode args b st kv)
        ((out, inr st) : py (Z * bool)) l
  = (out ++ concat (map (λ kv, (profile_slower.print_entry decode args b kv).1)
                        l),
     inr (st.1 + Z.of_nat (length (filter
               (λ kv, profile_slower.stack_missing args kv.1 = true) l)),
          st.2 || existsb (enomem_entry args) l)).
Proof.
  intros Hall.
  destruct (output_loop_out decode args b l out st)
    as (printed & rest & Hl & _ & Hlines & Hrest).
  destruct rest as [|kv rest].
  - rewrite app_nil_r in Hl. subst printed. rewrite app_nil_r in Hlines.
    destruct (foldl _ _ l) as [o r]. simpl in *. by subst.
  - destruct Hrest as [Hnone _].
    assert (Hin : kv ∈ l) by (rewrite Hl; set_solver).
    unfold names_decode in Hall. rewrite Forall_forall in Hall.
    destruct (Hall kv Hin) as [text Htext]. congruence.
Qed.



(** * Option validation *)

(** C8, as stated, fails for zero: [-F 0] passes [positive_int], the
    options are accepted, and the script goes on to attach the timer with
    a sample frequency of 0. *)
Lemma zero_frequency_is_accepted :
  int "0" = Some 0
  ∧ profile_slower.positive_int "0" = inr 0
  ∧ profile_slower.start samples.x86_64 (samples.with_frequency "0")
    = profile_slower.attach 0 ["vfs_write"].
Proof. repeat split; reflexivity. Qed.

(** C8, amended: a sample frequency that reads as a negative integer is
    turned down by [positive_int]; the parser then reports a usage error
    and the script ends before anything is attached.  A frequency that
    reads as zero or more passes the validator. *)
Theorem negative_frequency_is_rejected
    (k : kconfig) (a : profile_slower.argv) (val : string) (ival : Z) :
  profile_slower.opt_frequency a = Some val →
  int val = Some ival →
  (ival < 0 →
     profile_slower.positive_int val = inl "must be positive"
     ∧ profile_slower.parse_args k a = None
     ∧ profile_slower.start k a = profile_slower.usage_error)
  ∧ (0 ≤ ival → profile_slower.positive_int val = inr ival).
Proof.
  intros Hopt Hint.
  assert (Hv : profile_slower.positive_int val
               = if ival <? 0 then inl "must be positive" else inr ival).
  { unfold profile_slower.positive_int. by rewrite Hint. }
  split.
  - intros Hneg.
    assert (Hrej : profile_slower.positive_int val = inl "must be positive").
    { rewrite Hv. by destruct (Z.ltb_spec ival 0); [|lia]. }
    assert (Hparse : profile_slower.parse_args k a = None).
    { unfold profile_slower.parse_args. rewrite Hopt. simpl. rewrite Hrej.
      by destruct (match profile_slower.opt_pid a with
                   | Some _ => _ | None => _ end). }
    split; [exact Hrej|]. split; [exact Hparse|].
    unfold profile_slower.start. by rewrite Hparse.
  - intros Hnn. rewrite Hv. by destruct (Z.ltb_spec ival 0); [lia|].
Qed.

Lemma negative_frequency_is_rejected_witness :
  profile_slower.start samples.x86_64 (samples.with_frequency "-5")
    = profile_slower.usage_error
  ∧ profile_slower.positive_int "49" = inr 49.
Proof.
  split.
  - apply (negative_frequency_is_rejected samples.x86_64
             (samples.with_frequency "-5") "-5" (-5));
      [reflexivity | reflexivity | lia].
  - apply (negative_frequency_is_rejected samples.x86_64
             (samples.with_frequency "49") "49" 49);
      [reflexivity | reflexivity | lia].
Defined.

(** * Folded output *)

(** C4, as stated, fails in both tools.  For thread [w] with user frames
    [f1], [f2] and a kernel stack id of -1 (the tracer) or [-ENOMEM] (the
    profiler, count 3): the tracer prints the placeholder but always the
    count 1; the profiler prints the count 3 but no placeholder. *)
Lemma folded_missed_kernel_stack_lines :
  stdout (funcslower.print_stack samples.ascii_decode
            (samples.tracer_UK true) samples.bpf (samples.record 1 (-1)))
    = ["w;f1;f2;[Missed Kernel Stack] 1"]
  ∧ stdout (profile_slower.print_entry samples.ascii_decode
              (samples.profiler_with true false)
              samples.bpf (samples.key 1 (- ENOMEM), 3))
    = ["w;f1;f2 3"]
  ∧ stdout (funcslower.print_stack samples.ascii_decode
              (samples.tracer_UK true) samples.bpf (samples.record 1 (-1)))
    ≠ ["w;f1;f2;[Missed Kernel Stack] 3"]
  ∧ stdout (profile_slower.print_entry samples.ascii_decode
              (samples.profiler_with true false)
              samples.bpf (samples.key 1 (- ENOMEM), 3))
    ≠ ["w;f1;f2;[Missed Kernel Stack] 3"].
Proof. repeat split; by vm_compute. Qed.

Lemma stack_id_err_negative stack_id :
  stack_id_err stack_id = true → stack_id < 0.
Proof.
  unfold stack_id_err. intros H. apply andb_true_iff in H as [H _]. lia.
Qed.

Lemma stack_id_err_present stack_id :
  0 ≤ stack_id → stack_id_err stack_id = false ∧ (stack_id <? 0) = false.
Proof.
  intros H. unfold stack_id_err.
  assert ((stack_id <? 0) = false) as -> by lia. done.
Qed.

(** A stack id is an error, or [-EFAULT], or an id. *)
Lemma stack_id_cases stack_id :
  ((stack_id <? 0) = true ∧ (stack_id =? - EFAULT) = false
   ∧ (0 <=? stack_id) = false)
  ∨ ((stack_id <? 0) = true ∧ (stack_id =? - EFAULT) = true
     ∧ (0 <=? stack_id) = false)
  ∨ ((stack_id <? 0) = false ∧ (stack_id =? - EFAULT) = false
     ∧ (0 <=? stack_id) = true).
Proof.
  unfold EFAULT.
  destruct (Z.ltb_spec stack_id 0), (Z.eqb_spec stack_id (-14)),
    (Z.leb_spec 0 stack_id); try lia; auto.
Qed.

(** C4, amended: for a thread name that decodes, the tracer's folded
    line is the name, then for each stack that was asked for either the
    placeholder token (a stack id that is negative and not [-EFAULT]),
    or nothing (a stack id of [-EFAULT]), or the frames outermost first,
    with ["-"] in between when both stacks were captured, and then the
    count 1, whatever the record.  So with the kernel stack missed and the
    user stack present the line is the name, the user frames, the kernel
    token and 1.  The profiler writes no token: its folded line is the
    name, the user frames, the kernel frames and the count, and a negative
    stack id leaves its frames out. *)
Theorem folded_placeholders
    (decode : string → option string)
    (args : funcslower.Args) (b : BPF) (event : funcslower.data_t)
    (pargs : profile_slower.Args) (k : profile_slower.key_t) (v : Z)
    (text ptext : string) :
  let user_frames :=
    map (λ addr, sym b addr (funcslower.tgid_pid event))
        (rev (stack_traces_walk b (funcslower.user_stack_id event))) in
  let kernel_frames :=
    map (ksym b)
        (rev (stack_traces_walk b (funcslower.kernel_stack_id event))) in
  let delimiter :=
    if funcslower.user_stack args && funcslower.kernel_stack args
       && (0 <=? funcslower.kernel_stack_id event)
       && (0 <=? funcslower.user_stack_id event)
    then ["-"] else [] in
  (decode (funcslower.name event) = Some text →
   funcslower.folded args = true →
   funcslower.print_stack decode args b event
     = ([join ";"
           ([text]
            ++ stack_fields (funcslower.user_stack args)
                 (funcslower.user_stack_id event) "[Missed User Stack]"
                 user_frames
            ++ delimiter
            ++ stack_fields (funcslower.kernel_stack args)
                 (funcslower.kernel_stack_id event) "[Missed Kernel Stack]"
                 kernel_frames)
         +:+ " 1"], inr tt)
   ∧ (funcslower.user_stack args = true →
      funcslower.kernel_stack args = true →
      0 ≤ funcslower.user_stack_id event →
      stack_id_err (funcslower.kernel_stack_id event) = true →
      funcslower.print_stack decode args b event
        = ([join ";" ([text] ++ user_frames ++ ["[Missed Kernel Stack]"])
              +:+ " 1"], inr tt)))
  ∧ (decode (profile_slower.name k) = Some ptext →
     profile_slower.folded pargs = true →
     let puser_frames :=
       map (λ addr, sym b addr (profile_slower.k_pid k))
           (rev (if profile_slower.user_stack_id k <? 0 then []
                 else stack_traces_walk b (profile_slower.user_stack_id k))) in
     let pkernel_stack := profile_slower.fixed_kernel_stack b k in
     profile_slower.print_entry decode pargs b (k, v)
       = ([join ";"
             ([ptext] ++ puser_frames
              ++ (if profile_slower.need_delimiter pargs
                     && negb (bool_decide (pkernel_stack = []))
                  then ["-"] else [])
              ++ map (profile_slower.aksym pargs b) (rev pkernel_stack))
           +:+ " " +:+ fmt_d v], inr tt)
     ∧ (profile_slower.kernel_stack_id k < 0 →
        profile_slower.print_entry decode pargs b (k, v)
          = ([join ";" ([ptext] ++ puser_frames) +:+ " " +:+ fmt_d v],
             inr tt))).
Proof.
  intros user_frames kernel_frames delimiter.
  assert (Htracer :
    decode (funcslower.name event) = Some text →
    funcslower.folded args = true →
    funcslower.print_stack decode args b event
      = ([join ";"
            ([text]
             ++ stack_fields (funcslower.user_stack args)
                  (funcslower.user_stack_id event) "[Missed User Stack]"
                  user_frames
             ++ delimiter
             ++ stack_fields (funcslower.kernel_stack args)
                  (funcslower.kernel_stack_id event) "[Missed Kernel Stack]"
                  kernel_frames)
          +:+ " 1"], inr tt)).
  { intros Hname Hf.
    unfold funcslower.print_stack, funcslower.need_delimiter, py_decode,
      stack_fields, stack_id_err, delimiter, user_frames, kernel_frames.
    rewrite Hf, Hname.
    destruct (stack_id_cases (funcslower.user_stack_id event))
      as [(-> & -> & ->)|[(-> & -> & ->)|(-> & -> & ->)]];
      destruct (stack_id_cases (funcslower.kernel_stack_id event))
        as [(-> & -> & ->)|[(-> & -> & ->)|(-> & -> & ->)]];
      destruct (funcslower.user_stack args), (funcslower.kernel_stack args);
      with_strategy opaque [join] simpl;
      rewrite ?app_nil_r, <- ?app_assoc; reflexivity. }
  split.
  - intros Hname Hf. split; [by apply Htracer|].
    intros HU HK Hu Hkerr. rewrite Htracer by done.
    unfold stack_fields, delimiter. rewrite HU, HK.
    destruct (stack_id_err_present _ Hu) as [_ Hult].
    pose proof (stack_id_err_negative _ Hkerr) as Hkneg.
    unfold stack_id_err in Hkerr. rewrite Hkerr, Hult.
    assert ((funcslower.user_stack_id event =? - EFAULT) = false) as ->
      by (unfold EFAULT; lia).
    assert ((0 <=? funcslower.kernel_stack_id event) = false) as -> by lia.
    simpl. reflexivity.
  - intros Hname Hf puser_frames pkernel_stack.
    assert (Hline : profile_slower.print_entry decode pargs b (k, v)
      = ([join ";"
            ([ptext] ++ puser_frames
             ++ (if profile_slower.need_delimiter pargs
                    && negb (bool_decide (pkernel_stack = []))
                 then ["-"] else [])
             ++ map (profile_slower.aksym pargs b) (rev pkernel_stack))
          +:+ " " +:+ fmt_d v], inr tt)).
    { unfold profile_slower.print_entry, py_decode. rewrite Hf, Hname.
      reflexivity. }
    split; [exact Hline|].
    intros Hk. rewrite Hline.
    assert (Hnone : pkernel_stack = []).
    { unfold pkernel_stack, profile_slower.fixed_kernel_stack.
      by assert ((0 <=? profile_slower.kernel_stack_id k) = false) as ->
        by lia. }
    rewrite Hnone. simpl. rewrite andb_false_r. simpl.
    by rewrite !app_nil_r.
Qed.

Lemma folded_placeholders_witness :
  funcslower.print_stack samples.ascii_decode (samples.tracer_UK true)
      samples.bpf (samples.record 1 (-1))
    = (["w;f1;f2;[Missed Kernel Stack] 1"], inr tt)
  ∧ profile_slower.print_entry samples.ascii_decode
      (samples.profiler_with true false) samples.bpf
      (samples.key 1 (- ENOMEM), 3)
    = (["w;f1;f2 3"], inr tt).
Proof.
  destruct (folded_placeholders samples.ascii_decode
              (samples.tracer_UK true) samples.bpf
              (samples.record 1 (-1)) (samples.profiler_with true false)
              (samples.key 1 (- ENOMEM)) 3 "w" "w")
    as (Htracer & Hprofiler).
  destruct (Htracer eq_refl eq_refl) as [_ Hmissed].
  destruct (Hprofiler eq_refl eq_refl) as [_ Hnegative].
  split.
  - apply Hmissed; [reflexivity | reflexivity | by vm_compute | reflexivity].
  - apply Hnegative. by vm_compute.
Defined.

(** In folded mode [print_stack] writes one line ending in the count 1
    when the name decodes, and raises before writing when it does not. *)
Lemma tracer_print_stack_folded decode args b event :
  funcslower.folded args = true →
  match decode (funcslower.name event) with
  | Some _ =>
      ∃ body,
        funcslower.print_stack decode args b event
          = ([body +:+ " 1"], inr tt)
  | None =>
      funcslower.print_stack decode args b event
        = ([], inl UnicodeDecodeError)
  end.
Proof.
  intros Hf. unfold funcslower.print_stack, py_decode. rewrite Hf.
  destruct (decode (funcslower.name event)) as [text|]; [|done].
  eexists. with_strategy opaque [join] simpl. reflexivity.
Qed.

Lemma py_skip_then {A} (m : py A) : (mret tt ;; m) = m.
Proof. unfold mbind, mret, py_bind, py_ret. by destruct m. Qed.

(** In folded mode [print_event] is [print_stack], if a stack was asked
    for, and leaves [earliest_ts] alone. *)
Lemma tracer_print_event_folded decode args b event_line earliest_ts event :
  funcslower.folded args = true →
  funcslower.print_event decode args b event_line earliest_ts event
  = if funcslower.user_stack args || funcslower.kernel_stack args
    then ((funcslower.print_stack decode args b event).1,
          match (funcslower.print_stack decode args b event).2 with
          | inl e => inl e
          | inr _ => inr earliest_ts
          end)
    else ([], inr earliest_ts).
Proof.
  intros Hf. unfold funcslower.print_event. rewrite Hf. simpl negb.
  cbv iota. rewrite (py_bind_ok [] earliest_ts).
  destruct (funcslower.user_stack args || funcslower.kernel_stack args).
  - destruct (funcslower.print_stack decode args b event) as [out [e|[]]];
      simpl; [done|]. by rewrite app_nil_r.
  - reflexivity.
Qed.

Lemma tracer_poll_raised decode args b event_line
    (events : list funcslower.data_t) out e :
  foldl (λ acc event,
           earliest_ts ← acc;
           funcslower.print_event decode args b event_line earliest_ts event)
        ((out, inl e) : py Z) events
  = (out, inl e).
Proof. induction events as [|event events IH]; [done|]. simpl. exact IH. Qed.

(** C10, as stated, fails when no stack is asked for: with [-f] alone a
    finalized record produces no line at all. *)
Lemma folded_record_without_line :
  funcslower.folded more_samples.tracer_f = true
  ∧ stdout (funcslower.perf_buffer_poll samples.ascii_decode
              more_samples.tracer_f samples.bpf more_samples.columns 0
              [samples.record 1 2])
    = [].
Proof. split; reflexivity. Qed.

(** C10, amended: in folded mode every line the tracer writes ends in the
    count 1.  When [-U] or [-K] is given and the command names decode,
    [print_stack] writes exactly one such line for the record it is given
    and the polling loop writes exactly one such line per record, however
    many records share a stack.  With neither [-U] nor [-K] no line is
    written for a record. *)
Theorem tracer_folded_count_is_one
    (decode : string → option string) (args : funcslower.Args) (b : BPF)
    (event_line : Z → funcslower.data_t → string → string → string)
    (earliest_ts : Z)
    (event : funcslower.data_t) (events : list funcslower.data_t) :
  funcslower.folded args = true →
  (is_Some (decode (funcslower.name event)) →
   ∃ body,
     funcslower.print_stack decode args b event = ([body +:+ " 1"], inr tt))
  ∧ (funcslower.user_stack args || funcslower.kernel_stack args = true →
     Forall (λ event, is_Some (decode (funcslower.name event))) events →
     ∃ bodies,
       funcslower.perf_buffer_poll decode args b event_line earliest_ts events
         = (map (λ body, body +:+ " 1") bodies, inr earliest_ts)
       ∧ length bodies = length events)
  ∧ (funcslower.user_stack args || funcslower.kernel_stack args = false →
     funcslower.perf_buffer_poll decode args b event_line earliest_ts events
       = ([], inr earliest_ts))
  ∧ Forall (λ line, ∃ body, line = body +:+ " 1")
      (stdout (funcslower.print_stack decode args b event))
  ∧ Forall (λ line, ∃ body, line = body +:+ " 1")
      (stdout (funcslower.perf_buffer_poll decode args b event_line
                 earliest_ts events)).
Proof.
  intros Hf.
  assert (Hstack : ∀ ev,
    Forall (λ line, ∃ body, line = body +:+ " 1")
      (funcslower.print_stack decode args b ev).1).
  { intros ev. pose proof (tracer_print_stack_folded decode args b ev Hf) as Hc.
    destruct (decode (funcslower.name ev)).
    - destruct Hc as [body ->]. repeat constructor. by exists body.
    - rewrite Hc. constructor. }
  assert (Hstep : ∀ ets ev,
    Forall (λ line, ∃ body, line = body +:+ " 1")
      (funcslower.print_event decode args b event_line ets ev).1).
  { intros ets ev. rewrite tracer_print_event_folded by done.
    destruct (funcslower.user_stack args || funcslower.kernel_stack args);
      [apply Hstack | constructor]. }
  split; [|split; [|split; [|split]]].
  - intros [text Htext].
    pose proof (tracer_print_stack_folded decode args b event Hf) as Hc.
    by rewrite Htext in Hc.
  - intros Hstacks Hnames. unfold funcslower.perf_buffer_poll.
    unfold mret at 1, py_ret.
    assert (Hgen : ∀ out,
      ∃ bodies,
        foldl (λ acc ev,
                 ets ← acc;
                 funcslower.print_event decode args b event_line ets ev)
              ((out, inr earliest_ts) : py Z) events
        = (out ++ map (λ body, body +:+ " 1") bodies, inr earliest_ts)
        ∧ length bodies = length events).
    { induction Hnames as [|ev events [text Htext] _ IH]; intros out.
      - exists []. by rewrite app_nil_r.
      - cbn [foldl]. rewrite py_bind_ok.
        rewrite tracer_print_event_folded by done. rewrite Hstacks.
        pose proof (tracer_print_stack_folded decode args b ev Hf) as Hc.
        rewrite Htext in Hc. destruct Hc as [body ->]. cbn [fst snd].
        destruct (IH (out ++ [body +:+ " 1"])) as (bodies & -> & Hlen).
        exists (body :: bodies). split; [|simpl; by rewrite Hlen].
        by rewrite <- app_assoc. }
    apply (Hgen []).
  - intros Hnone. unfold funcslower.perf_buffer_poll.
    unfold mret at 1, py_ret.
    induction events as [|ev events IH]; [done|].
    cbn [foldl]. rewrite py_bind_ok.
    rewrite tracer_print_event_folded by done. rewrite Hnone. exact IH.
  - apply Hstack.
  - unfold funcslower.perf_buffer_poll, stdout.
    unfold mret at 1, py_ret.
    assert (Hgen : ∀ acc : py Z,
      Forall (λ line, ∃ body, line = body +:+ " 1") acc.1 →
      Forall (λ line, ∃ body, line = body +:+ " 1")
        (foldl (λ acc ev,
                  ets ← acc;
                  funcslower.print_event decode args b event_line ets ev)
               acc events).1).
    { induction events as [|ev events IH]; intros acc Hacc; [done|].
      cbn [foldl]. apply IH.
      destruct acc as [out [e|ets]]; [done|].
      rewrite py_bind_ok. simpl. apply Forall_app. split; [done|].
      apply Hstep. }
    apply Hgen. constructor.
Qed.

Lemma tracer_folded_count_is_one_witness :
  funcslower.print_stack samples.ascii_decode (samples.tracer_UK true)
      samples.bpf (samples.record 1 (-1))
    = (["w;f1;f2;[Missed Kernel Stack]" +:+ " 1"], inr tt)
  ∧ funcslower.perf_buffer_poll samples.ascii_decode (samples.tracer_UK true)
      samples.bpf more_samples.columns 0
      [samples.record 1 (-1); samples.record 1 (-1)]
    = (["w;f1;f2;[Missed Kernel Stack] 1";
        "w;f1;f2;[Missed Kernel Stack] 1"], inr 0)
  ∧ funcslower.perf_buffer_poll samples.ascii_decode more_samples.tracer_f
      samples.bpf more_samples.columns 0
      [samples.record 1 (-1); samples.record 1 (-1)]
    = ([], inr 0).
Proof.
  destruct (tracer_folded_count_is_one samples.ascii_decode
              (samples.tracer_UK true) samples.bpf more_samples.columns 0
              (samples.record 1 (-1))
              [samples.record 1 (-1); samples.record 1 (-1)] eq_refl)
    as (Hline & Hpoll & _).
  destruct (tracer_folded_count_is_one samples.ascii_decode
              more_samples.tracer_f samples.bpf more_samples.columns 0
              (samples.record 1 (-1))
              [samples.record 1 (-1); samples.record 1 (-1)] eq_refl)
    as (_ & _ & Hnone & _).
  split; [|split].
  - destruct Hline as [body Hbody]; [by eexists|]. reflexivity.
  - destruct Hpoll as (bodies & Hbodies & _);
      [reflexivity | repeat constructor; by eexists|].
    reflexivity.
  - apply Hnone. reflexivity.
Defined.

(** * Tree output *)

(** C9, as stated, fails for the profiler run without [-d]: with both
    stacks asked for and present, the kernel frame is followed directly by
    the user frames; no separator line is written, and the count has a
    line of its own after the summary line. *)
Lemma tree_output_without_separator :
  stdout (profile_slower.print_entry samples.ascii_decode
            (samples.profiler_with false false)
            samples.bpf (samples.key 1 2, 3))
    = ["    k1"; "    f2"; "    f1";
       "    -                w (7)"; "        3" +:+ newline]
  ∧ "    --" ∉ stdout (profile_slower.print_entry samples.ascii_decode
                         (samples.profiler_with false false)
                         samples.bpf (samples.key 1 2, 3)).
Proof.
  assert (Hout : stdout (profile_slower.print_entry samples.ascii_decode
                           (samples.profiler_with false false)
                           samples.bpf (samples.key 1 2, 3))
                 = ["    k1"; "    f2"; "    f1";
                    "    -                w (7)"; "        3" +:+ newline])
    by (by vm_compute).
  split; [exact Hout|]. rewrite Hout. intros Hin.
  repeat (apply elem_of_cons in Hin as [Hin|Hin]; [by vm_compute in Hin|]).
  by apply elem_of_nil in Hin.
Qed.

(** C9, amended: in tree mode, for an aggregate of the profiler with
    both stacks asked for, both stack ids non-negative and a command name
    that decodes, the lines written are the kernel frames (led by the
    corrected instruction pointer when that is not zero), the separator
    line only if [-d] was given and there is at least one kernel frame,
    the user frames, the summary line with the thread name and the pid,
    and a line with the count. *)
Theorem profiler_tree_output
    (decode : string → option string)
    (args : profile_slower.Args) (b : BPF)
    (k : profile_slower.key_t) (v : Z) (text : string) :
  decode (profile_slower.name k) = Some text →
  profile_slower.folded args = false →
  profile_slower.user_stacks_only args = false →
  profile_slower.kernel_stacks_only args = false →
  0 ≤ profile_slower.user_stack_id k →
  0 ≤ profile_slower.kernel_stack_id k →
  let kernel_stack :=
    (if profile_slower.kernel_ip k =? 0 then []
     else [profile_slower.kernel_ip k])
    ++ stack_traces_walk b (profile_slower.kernel_stack_id k) in
  let user_stack := stack_traces_walk b (profile_slower.user_stack_id k) in
  profile_slower.print_entry decode args b (k, v)
    = (map (λ addr, "    " +:+ profile_slower.aksym args b addr) kernel_stack
       ++ (if profile_slower.delimited args
              && negb (bool_decide (kernel_stack = []))
           then ["    --"] else [])
       ++ map (λ addr, "    " +:+ sym b addr (profile_slower.k_pid k))
            user_stack
       ++ ["    " +:+ fmt_ljust 16 "-" +:+ " " +:+ text
             +:+ " (" +:+ fmt_d (profile_slower.k_pid k) +:+ ")";
           "        " +:+ fmt_d v +:+ newline],
       inr tt).
Proof.
  intros Hname Hf HU HK Hu Hk kernel_stack user_stack.
  assert (Hfixed : profile_slower.fixed_kernel_stack b k = kernel_stack).
  { unfold profile_slower.fixed_kernel_stack, kernel_stack.
    assert ((profile_slower.kernel_stack_id k <? 0) = false) as -> by lia.
    assert ((0 <=? profile_slower.kernel_stack_id k) = true) as -> by lia.
    by destruct (profile_slower.kernel_ip k =? 0). }
  unfold profile_slower.print_entry, profile_slower.need_delimiter, py_decode.
  rewrite Hf, HU, HK, Hfixed, Hname.
  assert ((profile_slower.user_stack_id k <? 0) = false) as -> by lia.
  fold user_stack. rewrite !py_for_print. simpl negb. rewrite andb_true_r.
  destruct (profile_slower.delimited args
            && negb (bool_decide (kernel_stack = []))); reflexivity.
Qed.

Lemma profiler_tree_output_witness :
  profile_slower.print_entry samples.ascii_decode
      (samples.profiler_with false true)
      samples.bpf (samples.key 1 2, 3)
    = (["    k1"; "    --"; "    f2"; "    f1";
        "    -                w (7)"; "        3" +:+ newline], inr tt).
Proof.
  apply (profiler_tree_output samples.ascii_decode
           (samples.profiler_with false true)
           samples.bpf (samples.key 1 2) 3 "w");
    [reflexivity | reflexivity | reflexivity | reflexivity
    | by vm_compute | by vm_compute].
Defined.

(** X24: the tracer's tree mode prints a stack only when the other one
    was not asked for: with both [-U] and [-K] it writes no frame; it
    writes the summary line if the command name decodes and raises
    without writing anything if it does not. *)
Remark tracer_tree_output_both_requested
    (decode : string → option string)
    (args : funcslower.Args) (b : BPF) (event : funcslower.data_t) :
  funcslower.folded args = false →
  funcslower.user_stack args = true →
  funcslower.kernel_stack args = true →
  funcslower.print_stack decode args b event
    = match decode (funcslower.name event) with
      | Some text =>
          (["    " +:+ fmt_ljust 16 "-" +:+ " " +:+ text
              +:+ " (" +:+ fmt_d (funcslower.tgid_pid event) +:+ ")"],
           inr tt)
      | None => ([], inl UnicodeDecodeError)
      end.
Proof.
  intros Hf HU HK. unfold funcslower.print_stack, py_decode.
  rewrite Hf, HU, HK.
  by destruct (decode (funcslower.name event)).
Qed.

(** * Further properties of the tracer's hooks *)

(** X1: a hook that fires on one thread leaves the pending entry of every
    other thread as it was, in both tools; the profiler's timer hook
    does not touch the pending entries at all. *)
Theorem hooks_leave_other_threads_alone
    (args : funcslower.Args) (pargs : profile_slower.Args) (h : hook) (i : Z)
    (entryinfo : gmap Z entry_t) (t : profile_slower.tables) (other : Z) :
  other ≠ bpf_get_current_pid_tgid h →
  funcslower.trace_entry args h i entryinfo !! other = entryinfo !! other
  ∧ (funcslower.trace_return args h entryinfo).1 !! other = entryinfo !! other
  ∧ profile_slower.entryinfo (profile_slower.trace_entry h i t) !! other
    = profile_slower.entryinfo t !! other
  ∧ profile_slower.entryinfo (profile_slower.trace_return h t) !! other
    = profile_slower.entryinfo t !! other
  ∧ profile_slower.entryinfo (profile_slower.do_perf_event pargs h t)
    = profile_slower.entryinfo t.
Proof.
  intros Hne. repeat split.
  - unfold funcslower.trace_entry.
    destruct (funcslower.TGID_FILTER args _); [done|].
    by rewrite lookup_insert_ne.
  - unfold funcslower.trace_return.
    destruct (entryinfo !! bpf_get_current_pid_tgid h) as [entryp|]; [|done].
    destruct (_ <? funcslower.DURATION_NS args); simpl;
      by rewrite lookup_delete_ne.
  - unfold profile_slower.trace_entry. simpl. by rewrite lookup_insert_ne.
  - unfold profile_slower.trace_return.
    destruct (profile_slower.entryinfo t !! bpf_get_current_pid_tgid h);
      [|done].
    simpl. by rewrite lookup_delete_ne.
  - by destruct (do_perf_event_cases pargs h t) as [[_ ->]|[_ ->]].
Qed.

Lemma hooks_leave_other_threads_alone_witness :
  (funcslower.trace_return samples.tracer_K (samples.at_time 2000000)
     (<[9 * 2 ^ 32 + 9 := samples.pending 10]> samples.one_pending)).1
    !! (9 * 2 ^ 32 + 9)
  = Some (samples.pending 10).
Proof.
  etrans.
  - apply (hooks_leave_other_threads_alone samples.tracer_K samples.profiler
             (samples.at_time 2000000) 0
             (<[9 * 2 ^ 32 + 9 := samples.pending 10]> samples.one_pending)
             samples.no_tables (9 * 2 ^ 32 + 9)).
    by vm_compute.
  - reflexivity.
Defined.

(** After [trace_return] the firing thread has no pending entry. *)
Lemma tracer_return_clears args h entryinfo :
  (funcslower.trace_return args h entryinfo).1 !! bpf_get_current_pid_tgid h
    = None.
Proof.
  unfold funcslower.trace_return.
  destruct (entryinfo !! bpf_get_current_pid_tgid h) as [entryp|] eqn:Hl;
    [|done].
  destruct (_ <? funcslower.DURATION_NS args); simpl;
    apply lookup_delete_eq.
Qed.

Lemma tracer_return_miss args h (entryinfo : gmap Z entry_t) :
  entryinfo !! bpf_get_current_pid_tgid h = None →
  funcslower.trace_return args h entryinfo = (entryinfo, None).
Proof. intros Hnone. unfold funcslower.trace_return. by rewrite Hnone. Qed.

(** X2: a return consumes the pending entry: a second return of the same
    thread with no entry in between submits nothing and leaves the table
    as the first return left it. *)
Theorem tracer_second_return_is_dropped
    (args : funcslower.Args) (h1 h2 : hook) (entryinfo : gmap Z entry_t) :
  bpf_get_current_pid_tgid h2 = bpf_get_current_pid_tgid h1 →
  funcslower.trace_return args h2 (funcslower.trace_return args h1 entryinfo).1
    = ((funcslower.trace_return args h1 entryinfo).1, None).
Proof.
  intros Hsame.
  apply tracer_return_miss.
  rewrite Hsame. apply tracer_return_clears.
Qed.

Lemma tracer_second_return_is_dropped_witness :
  funcslower.trace_return samples.tracer_K (samples.at_time 2000020)
    (funcslower.trace_return samples.tracer_K (samples.at_time 2000000)
       samples.one_pending).1
  = (∅, None).
Proof.
  etrans.
  - apply (tracer_second_return_is_dropped samples.tracer_K
             (samples.at_time 2000000) (samples.at_time 2000020)
             samples.one_pending).
    reflexivity.
  - by vm_compute.
Defined.

(** What one probe adds to the records submitted so far. *)
Lemma tracer_fire_submitted args st p :
  (funcslower.fire args st p).2
    = st.2 ++ match p with
              | funcslower.Return h =>
                  option_list (funcslower.trace_return args h st.1).2
              | funcslower.Entry _ _ => []
              end.
Proof.
  destruct st as [tbl out], p as [h i|h]; simpl.
  - by rewrite app_nil_r.
  - by destruct (funcslower.trace_return args h tbl).
Qed.

Lemma tracer_record_duration args h entryinfo data :
  (funcslower.trace_return args h entryinfo).2 = Some data →
  funcslower.DURATION_NS args ≤ funcslower.d_duration_ns data < 2 ^ 64.
Proof.
  intros Hdata.
  destruct (entryinfo !! bpf_get_current_pid_tgid h) as [entryp|] eqn:Hl.
  - destruct (tracer_return_found args h entryinfo entryp Hl)
      as [_ [[Hnone _]|(data' & Hsome & Hge & _ & _ & Hdur & _)]];
      [congruence|].
    assert (data' = data) as -> by congruence.
    rewrite Hdur. split; [done|]. apply u64_range.
  - rewrite (tracer_return_miss args h entryinfo Hl) in Hdata. done.
Qed.

(** X3: over a whole run, whatever the probes and their order, every
    record submitted carries a duration of at least the threshold, and
    there are at most as many records as returns. *)
Theorem tracer_run_reports_only_slow_calls
    (args : funcslower.Args) (ps : list funcslower.probe)
    (entryinfo : gmap Z entry_t) :
  let submitted := (funcslower.run args ps (entryinfo, [])).2 in
  Forall (λ data, funcslower.DURATION_NS args
                    ≤ funcslower.d_duration_ns data < 2 ^ 64) submitted
  ∧ (length submitted ≤ length (filter is_return ps))%nat.
Proof.
  assert (Hgen : ∀ st,
    Forall (λ data, funcslower.DURATION_NS args
                      ≤ funcslower.d_duration_ns data < 2 ^ 64) st.2 →
    Forall (λ data, funcslower.DURATION_NS args
                      ≤ funcslower.d_duration_ns data < 2 ^ 64)
           (funcslower.run args ps st).2
    ∧ (length (funcslower.run args ps st).2
       ≤ length st.2 + length (filter is_return ps))%nat).
  { induction ps as [|p ps IH]; intros st Hst.
    - simpl. split; [done | lia].
    - change (funcslower.run args (p :: ps) st)
        with (funcslower.run args ps (funcslower.fire args st p)).
      destruct (IH (funcslower.fire args st p)) as [Hall Hlen].
      + rewrite tracer_fire_submitted. apply Forall_app. split; [done|].
        destruct p as [h i|h]; [constructor|].
        destruct (funcslower.trace_return args h st.1).2 as [data|] eqn:Hd;
          [|constructor].
        repeat constructor; by apply (tracer_record_duration args h st.1).
      + split; [done|].
        rewrite tracer_fire_submitted, length_app in Hlen.
        destruct p as [h i|h].
        * rewrite filter_cons_False by (simpl; tauto). simpl in *. lia.
        * rewrite filter_cons_True by done. simpl.
          destruct (funcslower.trace_return args h st.1).2; simpl in *; lia. }
  intros submitted. destruct (Hgen (entryinfo, [])) as [Hall Hlen];
    [constructor|].
  split; [done|]. simpl in Hlen. done.
Qed.

(** X4: with [-p PID] (a pid between 1 and [2 ^ 32 - 1]) and a table that
    holds only threads of that process, a run keeps the table that way and
    every record it submits belongs to the process. *)
Theorem tracer_pid_filter
    (args : funcslower.Args) (p : Z) (ps : list funcslower.probe)
    (entryinfo : gmap Z entry_t) :
  funcslower.tgid args = Some p →
  0 < p < 2 ^ 32 →
  map_Forall (λ key _, tgid_of key = p) entryinfo →
  map_Forall (λ key _, tgid_of key = p)
    (funcslower.run args ps (entryinfo, [])).1
  ∧ Forall (λ data, tgid_of (funcslower.tgid_pid data) = p)
      (funcslower.run args ps (entryinfo, [])).2.
Proof.
  intros Htgid Hp.
  assert (Hfilter : ∀ v, funcslower.TGID_FILTER args v = negb (v =? p)).
  { intros v. unfold funcslower.TGID_FILTER, u32_cmp_literal. rewrite Htgid.
    assert ((p =? 0) = false) as -> by lia.
    by assert ((p <? 0) = false) as -> by lia; rewrite andb_false_r. }
  assert (Hgen : ∀ st,
    map_Forall (λ key _, tgid_of key = p) st.1 →
    Forall (λ data, tgid_of (funcslower.tgid_pid data) = p) st.2 →
    map_Forall (λ key _, tgid_of key = p) (funcslower.run args ps st).1
    ∧ Forall (λ data, tgid_of (funcslower.tgid_pid data) = p)
        (funcslower.run args ps st).2).
  { induction ps as [|q ps IH]; intros st Htbl Hout; [done|].
    change (funcslower.run args (q :: ps) st)
      with (funcslower.run args ps (funcslower.fire args st q)).
    apply IH.
    - destruct st as [tbl out], q as [h i|h]; simpl in *.
      + unfold funcslower.trace_, funcslower.trace_entry.
        rewrite Hfilter. fold (tgid_of (bpf_get_current_pid_tgid h)).
        destruct (Z.eqb_spec (tgid_of (bpf_get_current_pid_tgid h)) p);
          simpl; [|done].
        by apply map_Forall_insert_2.
      + destruct (funcslower.trace_return args h tbl) as [tbl' sub] eqn:Hr.
        simpl. assert (tbl' = (funcslower.trace_return args h tbl).1)
          as -> by (by rewrite Hr).
        unfold funcslower.trace_return.
        destruct (tbl !! bpf_get_current_pid_tgid h); [|done].
        destruct (_ <? funcslower.DURATION_NS args); simpl;
          by apply map_Forall_delete.
    - rewrite tracer_fire_submitted. apply Forall_app. split; [done|].
      destruct q as [h i|h]; [constructor|].
      destruct (funcslower.trace_return args h st.1).2 as [data|] eqn:Hd;
        [|constructor].
      repeat constructor.
      unfold funcslower.trace_return in Hd.
      destruct (st.1 !! bpf_get_current_pid_tgid h) as [entryp|] eqn:Hl;
        [|done].
      destruct (_ <? funcslower.DURATION_NS args); [done|].
      simpl in Hd. injection Hd as <-. simpl.
      by apply (Htbl _ entryp). }
  intros Htbl. apply (Hgen (entryinfo, [])); [done | constructor].
Qed.

Lemma tracer_pid_filter_witness :
  Forall (λ data, tgid_of (funcslower.tgid_pid data) = 7)
    (funcslower.run more_samples.tracer_pid7 more_samples.two_threads
       (∅, [])).2.
Proof.
  apply (tracer_pid_filter more_samples.tracer_pid7 7
           more_samples.two_threads ∅).
  - reflexivity.
  - lia.
  - apply map_Forall_empty.
Defined.

(** X5: without [-p], or with [-p 0], no process is filtered out: an
    entry of any thread is stored under its [pid_tgid]. *)
Theorem tracer_without_pid_traces_every_thread
    (args : funcslower.Args) (h : hook) (i : nat)
    (entryinfo : gmap Z entry_t) :
  funcslower.tgid args = None ∨ funcslower.tgid args = Some 0 →
  funcslower.trace_ args i h entryinfo !! bpf_get_current_pid_tgid h
    = Some (entry_of args h i).
Proof.
  intros Hnone. rewrite tracer_entry_insert; [apply lookup_insert_eq|].
  unfold funcslower.TGID_FILTER. by destruct Hnone as [-> | ->].
Qed.

Lemma tracer_without_pid_traces_every_thread_witness :
  funcslower.trace_ samples.tracer_K 0 (more_samples.other_thread 10) ∅
    !! (9 * 2 ^ 32 + 9)
  = Some (samples.pending 10).
Proof.
  apply (tracer_without_pid_traces_every_thread samples.tracer_K
           (more_samples.other_thread 10) 0 ∅).
  by left.
Defined.

(** X6: with both [-U] and [-K], and without [-a], the kernel stack is
    never captured: every record the hook submits has a kernel stack id
    of -1 and a zero [kernel_ip], and, its command name decoding, its
    folded line ends in the kernel placeholder and the count 1. *)
Theorem tracer_user_and_kernel_misses_kernel
    (decode : string → option string)
    (args : funcslower.Args) (b : BPF) (h : hook)
    (entryinfo : gmap Z entry_t) (data : funcslower.data_t) (text : string) :
  funcslower.user_stack args = true →
  funcslower.kernel_stack args = true →
  funcslower.GRAB_ARGS args = false →
  funcslower.folded args = true →
  (funcslower.trace_return args h entryinfo).2 = Some data →
  decode (bpf_get_current_comm h) = Some text →
  layouts_agree args = true
  ∧ funcslower.kernel_stack_id data = -1
  ∧ funcslower.kernel_ip data = 0
  ∧ ∃ fields,
      funcslower.print_stack decode args b data
        = ([join ";" (text :: fields ++ ["[Missed Kernel Stack]"]) +:+ " 1"],
           inr tt).
Proof.
  intros HU HK Hgrab Hf Hdata Hname.
  split. { unfold layouts_agree. by rewrite Hgrab. }
  assert (Hkid : funcslower.kernel_stack_id data = -1
                 ∧ funcslower.kernel_ip data = 0
                 ∧ funcslower.name data = bpf_get_current_comm h).
  { unfold funcslower.trace_return in Hdata.
    destruct (entryinfo !! bpf_get_current_pid_tgid h); [|done].
    destruct (_ <? funcslower.DURATION_NS args); [done|].
    simpl in Hdata. injection Hdata as <-. simpl.
    unfold funcslower.KERNEL_STACKS, funcslower.KERNEL_STACK_GET.
    by rewrite HK, HU. }
  destruct Hkid as (Hkid & Hip & Hcomm). split; [done|]. split; [done|].
  unfold funcslower.print_stack, py_decode.
  rewrite Hf, HU, HK, Hkid, Hcomm, Hname.
  assert (stack_id_err (-1) = true) as -> by done.
  assert ((0 <=? -1) = false) as -> by done.
  rewrite andb_false_r.
  destruct (stack_id_err (funcslower.user_stack_id data)).
  - exists ["[Missed User Stack]"]. reflexivity.
  - eexists. with_strategy opaque [join] simpl. rewrite app_nil_r.
    reflexivity.
Qed.

Lemma tracer_user_and_kernel_misses_kernel_witness :
  ∃ data,
    (funcslower.trace_return (samples.tracer_UK true)
       (samples.at_time 2000000) samples.one_pending).2 = Some data
    ∧ funcslower.kernel_stack_id data = -1.
Proof.
  eexists. split; [reflexivity|].
  apply (tracer_user_and_kernel_misses_kernel samples.ascii_decode
           (samples.tracer_UK true) samples.bpf (samples.at_time 2000000)
           samples.one_pending _ "w");
    reflexivity.
Defined.

(** * Further properties of the tracer's report *)

Lemma tracer_kernel_frames_eq args b event :
  (if funcslower.kernel_stack args && (0 <=? funcslower.kernel_stack_id event)
   then
     if negb (funcslower.kernel_stack args)
        || (funcslower.kernel_stack_id event <? 0)
     then [] else stack_traces_walk b (funcslower.kernel_stack_id event)
   else [])
  = tracer_kernel_frames args b event.
Proof.
  unfold tracer_kernel_frames.
  destruct (funcslower.kernel_stack args); simpl; [|done].
  destruct (Z.leb_spec 0 (funcslower.kernel_stack_id event)); [|done].
  by assert ((funcslower.kernel_stack_id event <? 0) = false) as -> by lia.
Qed.

(** The loop over the kernel frames stops at its first [aksym]. *)
Lemma tracer_kernel_loop b (frames : list Z) :
  py_for frames
    (λ addr, s ← funcslower.aksym b addr; print ("    " +:+ s))
  = match frames with
    | [] => ([], inr tt)
    | _ :: _ => ([], inl (AttributeError "annotations"))
    end.
Proof. by destruct frames. Qed.

(** X7: how [print_stack] ends.  It ends in the [AttributeError] of
    reading [args.annotations], an option this script does not define, in
    exactly one situation: tree mode, [-U] not given, a kernel stack id
    that is not an error, and at least one kernel frame to print; nothing
    has been written by then.  Otherwise it ends in a
    [UnicodeDecodeError] if the command name does not decode (in folded
    mode before anything is written), and returns normally if it does. *)
Theorem tracer_print_stack_raises_iff
    (decode : string → option string)
    (args : funcslower.Args) (b : BPF) (event : funcslower.data_t) :
  let outcome := funcslower.print_stack decode args b event in
  outcome.2
    = (if reaches_aksym args b event
       then inl (AttributeError "annotations")
       else match decode (funcslower.name event) with
            | Some _ => inr tt
            | None => inl UnicodeDecodeError
            end)
  ∧ (reaches_aksym args b event = true → outcome.1 = [])
  ∧ (funcslower.folded args = true →
     decode (funcslower.name event) = None → outcome.1 = []).
Proof.
  intros outcome. unfold outcome, funcslower.print_stack, reaches_aksym,
    py_decode.
  rewrite tracer_kernel_frames_eq.
  destruct (funcslower.folded args).
  { destruct (decode (funcslower.name event)); simpl; by repeat split. }
  rewrite tracer_kernel_loop, py_for_print.
  destruct (tracer_kernel_frames args b event) as [|addr frames];
    [rewrite (bool_decide_eq_true_2 (@nil Z = [])) by done
    |rewrite (bool_decide_eq_false_2 (addr :: frames = [])) by done];
    destruct (funcslower.user_stack args), (funcslower.kernel_stack args),
      (stack_id_err (funcslower.kernel_stack_id event)),
      (stack_id_err (funcslower.user_stack_id event)),
      (funcslower.need_delimiter args && _ && _),
      (decode (funcslower.name event));
    simpl; by repeat split.
Qed.

Lemma tracer_print_stack_raises_iff_witness :
  funcslower.print_stack samples.ascii_decode samples.tracer_K samples.bpf
    (samples.record 1 2)
  = ([], inl (AttributeError "annotations")).
Proof.
  destruct (tracer_print_stack_raises_iff samples.ascii_decode
              samples.tracer_K samples.bpf (samples.record 1 2))
    as (Hend & Hout & _).
  specialize (Hout eq_refl).
  destruct (funcslower.print_stack samples.ascii_decode samples.tracer_K
              samples.bpf (samples.record 1 2)) as [out r].
  simpl in *. by subst.
Defined.

(** What [print_event] does in tree mode when no stack was asked for. *)
Lemma tracer_print_event_plain decode args b event_line earliest_ts event
    text function :
  funcslower.folded args = false →
  funcslower.user_stack args = false →
  funcslower.kernel_stack args = false →
  decode (funcslower.name event) = Some text →
  0 ≤ funcslower.d_id event →
  funcslower.functions args !! Z.to_nat (funcslower.d_id event)
    = Some function →
  funcslower.print_event decode args b event_line earliest_ts event
  = ([event_line (funcslower.time_str_state args earliest_ts event) event
        text function],
     inr (funcslower.time_str_state args earliest_ts event)).
Proof.
  intros Hf HU HK Hname Hid Hfun.
  unfold funcslower.print_event, py_decode, py_index.
  apply Z.ltb_ge in Hid.
  rewrite Hf, HU, HK, Hname. cbv zeta. rewrite Hid. cbv iota. rewrite Hid.
  by rewrite Hfun.
Qed.

(** X8: when neither [-U] nor [-K] is given, the polling loop writes
    nothing at all in folded mode; in tree mode it writes one line per
    record, provided each record's command name decodes and its probe
    index is within [args.functions]. *)
Theorem tracer_output_without_stacks
    (decode : string → option string)
    (args : funcslower.Args) (b : BPF)
    (event_line : Z → funcslower.data_t → string → string → string)
    (earliest_ts : Z) (events : list funcslower.data_t) :
  funcslower.user_stack args = false →
  funcslower.kernel_stack args = false →
  (funcslower.folded args = true →
   funcslower.perf_buffer_poll decode args b event_line earliest_ts events
     = ([], inr earliest_ts))
  ∧ (funcslower.folded args = false →
     Forall (λ event,
               is_Some (decode (funcslower.name event))
               ∧ 0 ≤ funcslower.d_id event
                 < Z.of_nat (length (funcslower.functions args))) events →
     ∃ lines earliest_ts',
       funcslower.perf_buffer_poll decode args b event_line earliest_ts events
         = (lines, inr earliest_ts')
       ∧ length lines = length events).
Proof.
  intros HU HK. unfold funcslower.perf_buffer_poll. split.
  - intros Hf. unfold mret at 1, py_ret.
    induction events as [|ev events IH]; [done|].
    cbn [foldl]. rewrite py_bind_ok.
    rewrite tracer_print_event_folded by done. rewrite HU, HK. exact IH.
  - intros Hf Hall. unfold mret at 1, py_ret.
    assert (Hgen : ∀ out ets,
      ∃ lines ets',
        foldl (λ acc ev,
                 ets ← acc;
                 funcslower.print_event decode args b event_line ets ev)
              ((out, inr ets) : py Z) events
        = (out ++ lines, inr ets')
        ∧ length lines = length events).
    { induction Hall as [|ev events [[text Htext] [Hid Hlt]] _ IH];
        intros out ets.
      - exists [], ets. by rewrite app_nil_r.
      - destruct (lookup_lt_is_Some_2 (funcslower.functions args)
                    (Z.to_nat (funcslower.d_id ev))) as [function Hfun];
          [lia|].
        cbn [foldl]. rewrite py_bind_ok.
        rewrite (tracer_print_event_plain _ _ _ _ _ _ text function) by done.
        cbn [fst snd].
        destruct (IH (out ++ [event_line
                                (funcslower.time_str_state args ets ev)
                                ev text function])
                    (funcslower.time_str_state args ets ev))
          as (lines & ets' & -> & Hlen).
        eexists (_ :: lines), ets'. split; [|simpl; by rewrite Hlen].
        by rewrite <- app_assoc. }
    destruct (Hgen [] earliest_ts) as (lines & ets' & Hpoll & Hlen).
    by exists lines, ets'.
Qed.

Lemma tracer_output_without_stacks_witness :
  funcslower.perf_buffer_poll samples.ascii_decode more_samples.tracer_f
      samples.bpf more_samples.columns 0
      [samples.record 1 2; samples.record 1 2]
  = ([], inr 0)
  ∧ ∃ lines earliest_ts',
      funcslower.perf_buffer_poll samples.ascii_decode
        more_samples.tracer_a2 samples.bpf more_samples.columns 0
        [samples.record 1 2; samples.record 1 2]
      = (lines, inr earliest_ts')
      ∧ length lines = 2%nat.
Proof.
  split.
  - apply (tracer_output_without_stacks samples.ascii_decode
             more_samples.tracer_f samples.bpf more_samples.columns 0
             [samples.record 1 2; samples.record 1 2]); reflexivity.
  - apply (tracer_output_without_stacks samples.ascii_decode
             more_samples.tracer_a2 samples.bpf more_samples.columns 0
             [samples.record 1 2; samples.record 1 2]);
      [reflexivity..|].
    repeat constructor; (by eexists) || (simpl; lia).
Defined.

(** X9: with [-a n], [1 <= n <= 6], and neither [-U] nor [-K], the
    arguments printed for a call are the first [n] argument registers as
    they were when the call was entered, not as they are at the return;
    the record carries all six. *)
Theorem tracer_prints_entry_arguments
    (args : funcslower.Args) (n : Z) (entry ret : hook) (i : nat)
    (entryinfo : gmap Z entry_t) (data : funcslower.data_t) :
  funcslower.arguments args = Some n →
  1 ≤ n ≤ 6 →
  funcslower.user_stack args = false →
  funcslower.kernel_stack args = false →
  funcslower.TGID_FILTER args (u32 (bpf_get_current_pid_tgid entry ≫ 32))
    = false →
  bpf_get_current_pid_tgid ret = bpf_get_current_pid_tgid entry →
  (funcslower.trace_return args ret
     (funcslower.trace_ args i entry entryinfo)).2 = Some data →
  let registers :=
    [PT_REGS_PARM1 (ctx entry); PT_REGS_PARM2 (ctx entry);
     PT_REGS_PARM3 (ctx entry); PT_REGS_PARM4 (ctx entry);
     PT_REGS_PARM5 (ctx entry); PT_REGS_PARM6 (ctx entry)] in
  layouts_agree args = true
  ∧ funcslower.d_args data = registers
  ∧ funcslower.args_str args data
    = join " " (map (λ arg, "0x" +:+ fmt_x arg) (take (Z.to_nat n) registers)).
Proof.
  intros Hn Hrange HU HK Hf Hsame Hdata registers.
  split. { unfold layouts_agree. by rewrite HU, HK, andb_false_r. }
  assert (Hgrab : funcslower.GRAB_ARGS args = true).
  { unfold funcslower.GRAB_ARGS, funcslower.truthy. rewrite Hn.
    by assert ((n =? 0) = false) as -> by lia. }
  rewrite tracer_entry_insert in Hdata by done.
  assert (Hl : <[bpf_get_current_pid_tgid entry := entry_of args entry i]>
                 entryinfo !! bpf_get_current_pid_tgid ret
               = Some (entry_of args entry i)).
  { rewrite Hsame. apply lookup_insert_eq. }
  destruct (tracer_return_found args ret _ _ Hl)
    as [_ [[Hnone _]|(data' & Hsome & _ & _ & _ & _ & Hargs)]];
    [congruence|].
  assert (data' = data) as -> by congruence.
  assert (Hregs : funcslower.d_args data = registers).
  { rewrite Hargs, Hgrab. unfold entry_of. simpl. by rewrite Hgrab. }
  split; [exact Hregs|].
  unfold funcslower.args_str. fold (funcslower.GRAB_ARGS args).
  rewrite Hgrab, Hn, Hregs. simpl negb. cbv iota. unfold slice_to. simpl default.
  by assert ((0 <=? n) = true) as -> by lia.
Qed.

Lemma tracer_prints_entry_arguments_witness :
  ∃ data,
    (funcslower.trace_return more_samples.tracer_a2 (samples.at_time 2000000)
       (funcslower.trace_ more_samples.tracer_a2 0 (samples.at_time 0) ∅)).2
      = Some data
    ∧ funcslower.args_str more_samples.tracer_a2 data = "0x3 0x1000".
Proof.
  eexists. split; [reflexivity|].
  etrans.
  - apply (tracer_prints_entry_arguments more_samples.tracer_a2 2
             (samples.at_time 0) (samples.at_time 2000000) 0 ∅);
      [reflexivity | lia | reflexivity | reflexivity | reflexivity
      | reflexivity | reflexivity].
  - by vm_compute.
Defined.

(** X10: a negative [-a n] counts from the end, as Python's slice does:
    of the six arguments a record carries, the first [6 + n] are printed
    (none once [n <= -6]). *)
Theorem tracer_negative_argument_count
    (args : funcslower.Args) (n : Z) (event : funcslower.data_t) :
  funcslower.arguments args = Some n →
  n < 0 →
  length (funcslower.d_args event) = 6%nat →
  funcslower.args_str args event
    = join " " (map (λ arg, "0x" +:+ fmt_x arg)
                    (take (Z.to_nat (6 + n)) (funcslower.d_args event))).
Proof.
  intros Hn Hneg Hlen. unfold funcslower.args_str, funcslower.truthy.
  rewrite Hn. assert ((n =? 0) = false) as -> by lia.
  simpl negb. cbv iota. unfold slice_to. simpl default.
  assert ((0 <=? n) = false) as -> by lia.
  by rewrite Hlen.
Qed.

Lemma tracer_negative_argument_count_witness :
  funcslower.args_str
    {| funcslower.tgid := None; funcslower.arguments := Some (-4);
       funcslower.time := false; funcslower.timestamp := false;
       funcslower.functions := ["vfs_write"];
       funcslower.user_stack := false; funcslower.kernel_stack := false;
       funcslower.folded := false; funcslower.duration_ns := 1000000;
       funcslower.kernel := samples.x86_64 |}
    {| funcslower.d_id := 0; funcslower.tgid_pid := 7;
       funcslower.start_ns := 0; funcslower.d_duration_ns := 2000000;
       funcslower.retval := 0; funcslower.name := "w";
       funcslower.user_stack_id := 0; funcslower.kernel_stack_id := 0;
       funcslower.kernel_ip := 0;
       funcslower.d_args := [10; 11; 12; 13; 14; 15] |}
  = "0xa 0xb".
Proof.
  etrans.
  - apply (tracer_negative_argument_count _ (-4)); [reflexivity | lia | reflexivity].
  - by vm_compute.
Defined.

(** * The attach loop *)

Lemma contains_app c s1 s2 :
  contains c (s1 +:+ s2) = contains c s1 || contains c s2.
Proof.
  induction s1 as [|c' s1 IH]; [done|].
  change (String c' s1 +:+ s2) with (String c' (s1 +:+ s2)). simpl.
  rewrite IH. by destruct (Ascii.eqb c' c).
Qed.

Lemma split_not_nil c s : split c s ≠ [].
Proof.
  induction s as [|c' s IH]; simpl; [done|].
  destruct (Ascii.eqb c' c); [done|]. by destruct (split c s).
Qed.

(** A string without the separator is a single field. *)
Lemma split_without c s : contains c s = false → split c s = [s].
Proof.
  induction s as [|c' s IH]; simpl; [done|].
  destruct (Ascii.eqb c' c); [done|]. intros Hs. by rewrite IH.
Qed.

(** Splitting undoes joining at the first separator. *)
Lemma split_app c s1 s2 :
  contains c s1 = false →
  split c (s1 +:+ String c s2) = s1 :: split c s2.
Proof.
  induction s1 as [|c' s1 IH]; intros Hs1.
  - change ("" +:+ String c s2) with (String c s2). simpl.
    by rewrite Ascii.eqb_refl.
  - change (String c' s1 +:+ String c s2)
      with (String c' (s1 +:+ String c s2)).
    simpl in *. destruct (Ascii.eqb c' c); [done|]. by rewrite IH.
Qed.

(** X11: how a function specification is attached.  A name without a
    colon gets a kprobe and a kretprobe.  [library:func] gets a uprobe and
    a uretprobe on that library and symbol (either may be empty).  A
    specification with two or more colons cannot be unpacked into two
    names and raises.  The entry probe of the [i]-th function runs
    [trace_<i>]; every return probe runs [trace_return]. *)
Theorem attach_function_cases (i : nat) (a b c : string) :
  let entry_fn := "trace_" +:+ fmt_d (Z.of_nat i) in
  (contains ":" a = false →
   attach_function i a
     = Some [attach_kprobe a entry_fn; attach_kretprobe a "trace_return"])
  ∧ (contains ":" a = false → contains ":" b = false →
     attach_function i (a +:+ ":" +:+ b)
       = Some [attach_uprobe a b entry_fn;
               attach_uretprobe a b "trace_return"])
  ∧ (contains ":" a = false → contains ":" b = false →
     attach_function i (a +:+ ":" +:+ b +:+ ":" +:+ c) = None).
Proof.
  intros entry_fn. split; [|split].
  - intros Ha. unfold attach_function. by rewrite Ha.
  - intros Ha Hb. unfold attach_function.
    rewrite contains_app. change (":" +:+ b) with (String ":" b).
    simpl contains. rewrite orb_true_r.
    by rewrite split_app, split_without.
  - intros Ha Hb. unfold attach_function.
    rewrite contains_app. change (":" +:+ b +:+ ":" +:+ c)
      with (String ":" (b +:+ String ":" c)).
    simpl contains. rewrite orb_true_r.
    rewrite !split_app by done.
    destruct (split ":" c) as [|f fs] eqn:Hc; [by apply split_not_nil in Hc|].
    done.
Qed.

Lemma attach_function_cases_witness :
  attach_function 0 "vfs_write"
    = Some [attach_kprobe "vfs_write" "trace_0";
            attach_kretprobe "vfs_write" "trace_return"]
  ∧ attach_function 1 "c:open"
    = Some [attach_uprobe "c" "open" "trace_1";
            attach_uretprobe "c" "open" "trace_return"]
  ∧ attach_function 2 "a:b:c" = None.
Proof.
  destruct (attach_function_cases 0 "vfs_write" "" "") as (Hk & _ & _).
  destruct (attach_function_cases 1 "c" "open" "") as (_ & Hu & _).
  destruct (attach_function_cases 2 "a" "b" "c") as (_ & _ & Hbad).
  split; [by apply Hk|]. split; [by apply Hu | by apply Hbad].
Defined.

Lemma split_with c s : contains c s = true → (2 ≤ length (split c s))%nat.
Proof.
  induction s as [|c' s IH]; simpl; [done|].
  destruct (Ascii.eqb c' c).
  - intros _. simpl. pose proof (split_not_nil c s).
    destruct (split c s); [done | simpl; lia].
  - intros Hs. specialize (IH Hs).
    destruct (split c s); simpl in *; lia.
Qed.

(** Unpacking fails exactly for three or more fields; what is attached
    otherwise is an entry probe and a return probe. *)
Lemma attach_function_None i function :
  (attach_function i function = None
   ↔ (2 < length (split ":" function))%nat)
  ∧ ∀ probes, attach_function i function = Some probes →
      length probes = 2%nat.
Proof.
  unfold attach_function.
  destruct (contains ":" function) eqn:Hc.
  - pose proof (split_with _ _ Hc) as Hlen.
    destruct (split ":" function) as [|f1 [|f2 [|f3 fs]]]; simpl in *;
      try lia.
    + split; [split; [done | lia]|]. by intros probes [= <-].
    + split; [split; [intros _; lia | done]|]. done.
  - rewrite (split_without _ _ Hc). simpl.
    split; [split; [done | lia]|]. by intros probes [= <-].
Qed.

(** X12: the attach loop takes the functions in order.  If every
    specification has at most one colon, the loop runs to its end and has
    attached two probes per function.  At the first specification with two
    or more colons it stops: the functions before it are attached, that one
    and all later ones are not. *)
Theorem attach_loop_stops_at_bad_spec
    (i : nat) (good : list string) (bad : string) (rest : list string) :
  Forall (λ function, (length (split ":" function) ≤ 2)%nat) good →
  (attach_functions i good).2 = true
  ∧ length (attach_functions i good).1 = (2 * length good)%nat
  ∧ ((2 < length (split ":" bad))%nat →
     attach_functions i (good ++ bad :: rest)
       = ((attach_functions i good).1, false)).
Proof.
  intros Hgood. revert i.
  induction Hgood as [|function good Hf _ IH]; intros i.
  - simpl. split; [done|]. split; [done|]. intros Hbad.
    destruct (attach_function_None i bad) as [Hnone _].
    apply Hnone in Hbad. by rewrite Hbad.
  - cbn [attach_functions app].
    destruct (attach_function_None i function) as [Hnone Hsome].
    destruct (attach_function i function) as [probes|] eqn:Ha.
    + specialize (Hsome probes eq_refl).
      destruct (IH (S i)) as (Hfin & Hlen & Hstop).
      destruct (attach_functions (S i) good) as [later finished] eqn:Hl.
      simpl in *. split; [done|]. split.
      * rewrite length_app. lia.
      * intros Hbad. rewrite (Hstop Hbad). done.
    + assert (2 < length (split ":" function))%nat by (by apply Hnone). lia.
Qed.

Lemma attach_loop_stops_at_bad_spec_witness :
  attach_functions 0 ["vfs_write"; "c:open"; "a:b:c"; "vfs_read"]
  = ([attach_kprobe "vfs_write" "trace_0";
      attach_kretprobe "vfs_write" "trace_return";
      attach_uprobe "c" "open" "trace_1";
      attach_uretprobe "c" "open" "trace_return"], false).
Proof.
  destruct (attach_loop_stops_at_bad_spec 0 ["vfs_write"; "c:open"]
              "a:b:c" ["vfs_read"]) as (_ & _ & Hstop).
  - repeat constructor.
  - apply Hstop. simpl. lia.
Defined.

(** * Further properties of the profiler's options *)

(** X13: what the two validators let through.  [positive_int] accepts a
    string exactly when it reads as an integer that is zero or more, and
    returns that integer; [positive_nonzero_int] accepts exactly the
    strings that read as an integer above zero.  Zero is turned down by
    the second with "must be nonzero", a string that is no integer by both
    with "must be an integer". *)
Theorem validators_accept_exactly (val : string) (n : Z) :
  (profile_slower.positive_int val = inr n ↔ int val = Some n ∧ 0 ≤ n)
  ∧ (profile_slower.positive_nonzero_int val = inr n
     ↔ int val = Some n ∧ 0 < n)
  ∧ (int val = Some 0 →
     profile_slower.positive_nonzero_int val = inl "must be nonzero")
  ∧ (int val = None →
     profile_slower.positive_int val = inl "must be an integer"
     ∧ profile_slower.positive_nonzero_int val = inl "must be an integer").
Proof.
  unfold profile_slower.positive_nonzero_int, profile_slower.positive_int.
  destruct (int val) as [ival|]; simpl.
  - assert (Hsome : ∀ m, Some ival = Some m ↔ ival = m)
      by (intros m; split; congruence).
    destruct (Z.ltb_spec ival 0); simpl.
    + split; [|split; [|split]].
      * split; [done|]. intros [Hm ?]. apply Hsome in Hm. lia.
      * split; [done|]. intros [Hm ?]. apply Hsome in Hm. lia.
      * intros Hm. apply Hsome in Hm. lia.
      * done.
    + destruct (Z.eqb_spec ival 0); simpl.
      * split; [|split; [|split]].
        -- split; [intros [= <-]; split; [done | lia]|].
           intros [Hm ?]. apply Hsome in Hm. by subst.
        -- split; [done|]. intros [Hm ?]. apply Hsome in Hm. lia.
        -- done.
        -- done.
      * split; [|split; [|split]].
        -- split; [intros [= <-]; split; [done | lia]|].
           intros [Hm ?]. apply Hsome in Hm. by subst.
        -- split; [intros [= <-]; split; [done | lia]|].
           intros [Hm ?]. apply Hsome in Hm. by subst.
        -- intros Hm. apply Hsome in Hm. lia.
        -- done.
  - split; [|split; [|split]]; try done; split; try done; by intros [? ?].
Qed.

Lemma validators_accept_exactly_witness :
  profile_slower.positive_nonzero_int " 0 " = inl "must be nonzero"
  ∧ profile_slower.positive_nonzero_int "ten" = inl "must be an integer".
Proof.
  destruct (validators_accept_exactly " 0 " 0) as (_ & _ & Hzero & _).
  destruct (validators_accept_exactly "ten" 0) as (_ & _ & _ & Hbad).
  split; [by apply Hzero | by apply Hbad].
Defined.

(** The validators return the integer they read, within their range. *)
Lemma validators_accept_exactly_aux val n :
  (profile_slower.positive_int val = inr n → 0 ≤ n)
  ∧ (profile_slower.positive_nonzero_int val = inr n → 0 < n).
Proof.
  unfold profile_slower.positive_nonzero_int, profile_slower.positive_int.
  destruct (int val) as [ival|]; simpl; [|done].
  destruct (Z.ltb_spec ival 0); simpl; [done|].
  destruct (Z.eqb_spec ival 0); simpl.
  - split; [intros [= <-]; lia | done].
  - split; intros [= <-]; lia.
Qed.

Lemma typed_option_cases type default_v o v :
  profile_slower.typed_option type default_v o = Some v →
  (o = None ∧ v = default_v) ∨ (∃ val, o = Some val ∧ type val = inr v).
Proof.
  unfold profile_slower.typed_option. destruct o as [val|].
  - destruct (type val) as [msg|w] eqn:Ht; [done|].
    intros [= <-]. right. eauto.
  - intros [= <-]. by left.
Qed.

(** X14: what holds of every command line the parser accepts: the
    frequency is zero or more, the stack storage size and the duration are
    above zero, a pid, if given, is zero or more, [-U] and [-K] are not
    both set, and there is at least one function to trace.  Options left
    out have their defaults: 49 Hertz, 10240 stacks, 99999999 seconds. *)
Theorem parsed_options_are_valid
    (k : kconfig) (a : profile_slower.argv) (args : profile_slower.Args) :
  profile_slower.parse_args k a = Some args →
  0 ≤ profile_slower.frequency args
  ∧ 0 < profile_slower.stack_storage_size args
  ∧ 0 < profile_slower.duration args
  ∧ (∀ p, profile_slower.pid args = Some p → 0 ≤ p)
  ∧ ¬ (profile_slower.user_stacks_only args = true
       ∧ profile_slower.kernel_stacks_only args = true)
  ∧ profile_slower.functions args ≠ []
  ∧ (profile_slower.opt_frequency a = None →
     profile_slower.frequency args = 49)
  ∧ (profile_slower.opt_stack_storage_size a = None →
     profile_slower.stack_storage_size args = 10240)
  ∧ (profile_slower.opt_duration a = None →
     profile_slower.duration args = 99999999).
Proof.
  unfold profile_slower.parse_args. intros Hparse.
  destruct (match profile_slower.opt_pid a with
            | Some _ => _ | None => _ end) as [pid_v|] eqn:Hpid; [|done].
  simpl in Hparse.
  destruct (profile_slower.typed_option profile_slower.positive_int 49 _)
    as [frequency_v|] eqn:Hfreq; [|done].
  simpl in Hparse.
  destruct (profile_slower.typed_option profile_slower.positive_nonzero_int
              10240 _) as [storage_v|] eqn:Hstorage; [|done].
  simpl in Hparse.
  destruct (profile_slower.typed_option profile_slower.positive_nonzero_int
              99999999 _) as [duration_v|] eqn:Hduration; [|done].
  simpl in Hparse.
  destruct (profile_slower.opt_user_stacks_only a
            && profile_slower.opt_kernel_stacks_only a) eqn:Hboth; [done|].
  destruct (bool_decide (profile_slower.opt_functions a = [])) eqn:Hfun;
    [done|].
  injection Hparse as <-. simpl.
  apply typed_option_cases in Hfreq, Hstorage, Hduration.
  split.
  { destruct Hfreq as [[_ ->]|(val & _ & Hv)]; [lia|].
    by apply (validators_accept_exactly_aux val). }
  split.
  { destruct Hstorage as [[_ ->]|(val & _ & Hv)]; [lia|].
    by apply (validators_accept_exactly_aux val). }
  split.
  { destruct Hduration as [[_ ->]|(val & _ & Hv)]; [lia|].
    by apply (validators_accept_exactly_aux val). }
  split.
  { intros p ->. destruct (profile_slower.opt_pid a) as [val|]; [|done].
    destruct (profile_slower.positive_int val) as [msg|v] eqn:Hv; [done|].
    injection Hpid as ->. by apply (validators_accept_exactly_aux val). }
  split.
  { intros [HU HK]. by rewrite HU, HK in Hboth. }
  split.
  { by apply bool_decide_eq_false in Hfun. }
  split; [|split].
  - intros Hnone. destruct Hfreq as [[_ ->]|(val & Ho & _)]; congruence.
  - intros Hnone. destruct Hstorage as [[_ ->]|(val & Ho & _)]; congruence.
  - intros Hnone. destruct Hduration as [[_ ->]|(val & Ho & _)]; congruence.
Qed.

Lemma parsed_options_are_valid_witness :
  ∃ args,
    profile_slower.parse_args samples.x86_64 (samples.with_frequency "99")
      = Some args
    ∧ profile_slower.frequency args = 99
    ∧ 0 < profile_slower.duration args
    ∧ profile_slower.stack_storage_size args = 10240.
Proof.
  eexists. split; [reflexivity|].
  destruct (parsed_options_are_valid samples.x86_64
              (samples.with_frequency "99") _ eq_refl)
    as (_ & _ & Hduration & _ & _ & _ & _ & Hstorage & _).
  split; [reflexivity|]. split; [exact Hduration|].
  apply Hstorage. reflexivity.
Defined.

(** * Further properties of the profiler's hooks *)

(** X15: a call that is entered and then returns on the same thread
    leaves no trace in the pending-call table: if the thread had no entry
    before, the table after the return is the table before the entry (in
    the profiler, both tables are). *)
Theorem entry_then_return_restores_table
    (args : funcslower.Args) (entry ret : hook) (i : nat)
    (entryinfo : gmap Z entry_t) (t : profile_slower.tables) :
  bpf_get_current_pid_tgid ret = bpf_get_current_pid_tgid entry →
  (entryinfo !! bpf_get_current_pid_tgid entry = None →
   (funcslower.trace_return args ret
      (funcslower.trace_ args i entry entryinfo)).1 = entryinfo)
  ∧ (profile_slower.entryinfo t !! bpf_get_current_pid_tgid entry = None →
     profile_slower.trace_return ret
       (profile_slower.trace_entry entry (Z.of_nat i) t) = t).
Proof.
  intros Hsame. split.
  - intros Hnone. unfold funcslower.trace_, funcslower.trace_entry.
    destruct (funcslower.TGID_FILTER args _).
    + rewrite tracer_return_miss; [done | by rewrite Hsame].
    + unfold funcslower.trace_return. rewrite Hsame, lookup_insert_eq.
      destruct (_ <? funcslower.DURATION_NS args); simpl;
        by rewrite delete_insert_id.
  - intros Hnone. destruct t as [tbl cnt].
    unfold profile_slower.trace_return, profile_slower.trace_entry.
    simpl in *. rewrite Hsame, lookup_insert_eq.
    by rewrite delete_insert_id.
Qed.

Lemma entry_then_return_restores_table_witness :
  (funcslower.trace_return samples.tracer_K (samples.at_time 2000000)
     (funcslower.trace_ samples.tracer_K 0 (samples.at_time 0) ∅)).1 = ∅.
Proof.
  apply (entry_then_return_restores_table samples.tracer_K
           (samples.at_time 0) (samples.at_time 2000000) 0 ∅
           samples.no_tables); reflexivity.
Defined.

(** X16: the timer counts a tick only for a thread inside a traced call
    that has lasted at least one millisecond.  With the thread filter
    passed and the elapsed time a [u64]: a tick is counted exactly when
    the pending entry is at least 1000000 ns old; a tick on a thread with
    no pending entry, or on a younger one, changes nothing. *)
Theorem profiler_tick_needs_slow_call
    (args : profile_slower.Args) (h : hook) (t : profile_slower.tables) :
  profile_slower.THREAD_FILTER args (tgid_of (bpf_get_current_pid_tgid h))
    = true →
  (profile_slower.entryinfo t !! bpf_get_current_pid_tgid h = None →
   profile_slower.do_perf_event args h t = t)
  ∧ (∀ entryp,
       profile_slower.entryinfo t !! bpf_get_current_pid_tgid h
         = Some entryp →
       0 ≤ bpf_ktime_get_ns h - e_start_ns entryp < 2 ^ 64 →
       (profile_slower.captures args h t = true
        ↔ 1000000 ≤ bpf_ktime_get_ns h - e_start_ns entryp)
       ∧ (bpf_ktime_get_ns h - e_start_ns entryp < 1000000 →
          profile_slower.do_perf_event args h t = t)
       ∧ (1000000 ≤ bpf_ktime_get_ns h - e_start_ns entryp →
          profile_slower.counts (profile_slower.do_perf_event args h t)
            !! profile_slower.perf_key args h
          = Some (u64 (default 0 (profile_slower.counts t
                                    !! profile_slower.perf_key args h) + 1)))).
Proof.
  intros Hfilter. unfold tgid_of in Hfilter. split.
  - intros Hnone. unfold profile_slower.do_perf_event.
    by rewrite Hfilter, Hnone.
  - intros entryp Hl Hrange.
    assert (Hcap : profile_slower.captures args h t
                   = negb (bpf_ktime_get_ns h - e_start_ns entryp <? 1000000)).
    { unfold profile_slower.captures. rewrite Hfilter, Hl. simpl.
      by rewrite u64_small. }
    split; [|split].
    + rewrite Hcap. destruct (Z.ltb_spec (bpf_ktime_get_ns h - e_start_ns entryp)
                                1000000); simpl; split; (done || lia).
    + intros Hyoung.
      destruct (do_perf_event_cases args h t) as [[_ ->]|[Htrue _]]; [done|].
      rewrite Hcap in Htrue.
      by assert ((bpf_ktime_get_ns h - e_start_ns entryp <? 1000000) = true)
        as Hlt by lia; rewrite Hlt in Htrue.
    + intros Hold.
      destruct (do_perf_event_cases args h t) as [[Hfalse _]|[_ ->]].
      * rewrite Hcap in Hfalse.
        by assert ((bpf_ktime_get_ns h - e_start_ns entryp <? 1000000) = false)
          as Hge by lia; rewrite Hge in Hfalse.
      * simpl. apply lookup_insert_eq.
Qed.

Lemma profiler_tick_needs_slow_call_witness :
  profile_slower.captures samples.profiler (samples.at_time 1005000)
    {| profile_slower.entryinfo := samples.one_pending;
       profile_slower.counts := ∅ |} = true
  ∧ profile_slower.do_perf_event samples.profiler (samples.at_time 1004999)
      {| profile_slower.entryinfo := samples.one_pending;
         profile_slower.counts := ∅ |}
    = {| profile_slower.entryinfo := samples.one_pending;
         profile_slower.counts := ∅ |}.
Proof.
  destruct (profiler_tick_needs_slow_call samples.profiler
              (samples.at_time 1005000)
              {| profile_slower.entryinfo := samples.one_pending;
                 profile_slower.counts := ∅ |} eq_refl) as [_ Hold].
  destruct (profiler_tick_needs_slow_call samples.profiler
              (samples.at_time 1004999)
              {| profile_slower.entryinfo := samples.one_pending;
                 profile_slower.counts := ∅ |} eq_refl) as [_ Hyoung].
  split.
  - apply (Hold (samples.pending 5000)); [reflexivity | by vm_compute | by vm_compute].
  - apply (Hyoung (samples.pending 5000)); [reflexivity | by vm_compute | by vm_compute].
Defined.

Lemma profiler_key_count_invariant args key es : ∀ t,
  map_Forall (λ _ v, 1 ≤ v) (profile_slower.counts t) →
  profile_slower.total (profile_slower.counts t)
    + Z.of_nat (profile_slower.captured_ticks args es t) < 2 ^ 64 →
  map_Forall (λ _ v, 1 ≤ v)
    (profile_slower.counts (profile_slower.run args es t))
  ∧ default 0 (profile_slower.counts (profile_slower.run args es t) !! key)
    = default 0 (profile_slower.counts t !! key)
      + Z.of_nat (captured_ticks_for args key es t).
Proof.
  induction es as [|e es IH]; intros t Hpos Hbound.
  - simpl. split; [done | lia].
  - change (profile_slower.run args (e :: es) t)
      with (profile_slower.run args es (profile_slower.fire args t e)).
    assert (Hnn : counts_nonneg (profile_slower.counts t)).
    { intros j w Hj. specialize (Hpos j w Hj). simpl in Hpos. lia. }
    destruct e as [h i|h|h].
    + apply (IH (profile_slower.trace_entry h (Z.of_nat i) t)); done.
    + assert (Hc : profile_slower.counts (profile_slower.trace_return h t)
                   = profile_slower.counts t).
      { unfold profile_slower.trace_return.
        by destruct (profile_slower.entryinfo t !! _). }
      cbn [profile_slower.captured_ticks captured_ticks_for
           profile_slower.fire] in *.
      rewrite <- Hc in *. apply IH; [done | lia].
    + cbn [profile_slower.captured_ticks captured_ticks_for
           profile_slower.fire] in *.
      destruct (do_perf_event_cases args h t) as [[Hcap Hdo]|[Hcap Hdo]];
        rewrite Hcap in *; rewrite Hdo in *.
      * simpl in *. apply IH; [done | lia].
      * set (k := profile_slower.perf_key args h) in *.
        set (old := default 0 (profile_slower.counts t !! k)) in *.
        assert (Hold : 0 ≤ old ≤ profile_slower.total (profile_slower.counts t)).
        { unfold old. destruct (profile_slower.counts t !! k) eqn:Hk; simpl.
          - by apply (count_le_total _ k).
          - split; [lia | by apply total_nonneg]. }
        assert (Hwrap : u64 (old + 1) = old + 1) by (apply u64_small; lia).
        rewrite Hwrap in *.
        set (t' := {| profile_slower.entryinfo := profile_slower.entryinfo t;
                      profile_slower.counts :=
                        <[k := old + 1]> (profile_slower.counts t) |}) in *.
        assert (Ht' : profile_slower.total (profile_slower.counts t')
                      = profile_slower.total (profile_slower.counts t) + 1).
        { unfold t'. simpl. rewrite total_insert. fold old. lia. }
        destruct (IH t') as [H1 H2].
        -- unfold t'. simpl. apply map_Forall_insert_2; [lia | done].
        -- rewrite Ht'. lia.
        -- split; [done|]. rewrite H2. unfold t'. simpl.
           destruct (decide (k = key)) as [->|Hne].
           ++ rewrite lookup_insert_eq, bool_decide_eq_true_2 by done.
              simpl. unfold old. lia.
           ++ rewrite lookup_insert_ne, bool_decide_eq_false_2 by done.
              simpl. lia.
Qed.

(** X17: the profiler aggregates per key.  Starting from an empty table,
    the count stored under a key at the end of a run is the number of
    ticks that reached the stack capture and built that very key (same
    pid, command name, stack ids and corrected instruction pointer); a key
    no such tick built is not in the table.  The run is taken to have
    fewer than [2 ^ 64] counted ticks. *)
Theorem profiler_count_per_key
    (args : profile_slower.Args) (key : profile_slower.key_t)
    (es : list profile_slower.event) (pending : gmap Z entry_t) :
  let t0 := {| profile_slower.entryinfo := pending;
               profile_slower.counts := ∅ |} in
  Z.of_nat (profile_slower.captured_ticks args es t0) < 2 ^ 64 →
  default 0 (profile_slower.counts (profile_slower.run args es t0) !! key)
    = Z.of_nat (captured_ticks_for args key es t0)
  ∧ (profile_slower.counts (profile_slower.run args es t0) !! key = None
     ↔ captured_ticks_for args key es t0 = 0%nat).
Proof.
  intros t0 Hbound.
  destruct (profiler_key_count_invariant args key es t0) as [Hpos Hcount].
  - unfold t0. simpl. apply map_Forall_empty.
  - unfold t0 at 1. simpl. rewrite total_empty. lia.
  - unfold t0 at 2 in Hcount. simpl in Hcount. rewrite lookup_empty in Hcount.
    simpl in Hcount. split; [exact Hcount|].
    destruct (profile_slower.counts (profile_slower.run args es t0) !! key)
      as [v|] eqn:Hv; simpl in Hcount.
    + specialize (Hpos key v Hv). simpl in Hpos.
      split; [done | lia].
    + split; [lia | done].
Qed.

Lemma profiler_count_per_key_witness :
  default 0
    (profile_slower.counts
       (profile_slower.run samples.profiler samples.ticks samples.no_tables)
     !! profile_slower.perf_key samples.profiler (samples.at_time 0))
  = 2.
Proof.
  etrans.
  - apply (profiler_count_per_key samples.profiler
             (profile_slower.perf_key samples.profiler (samples.at_time 0))
             samples.ticks ∅).
    by vm_compute.
  - by vm_compute.
Defined.

Lemma profiler_fire_entryinfo args e t t' :
  profile_slower.entryinfo t = profile_slower.entryinfo t' →
  profile_slower.entryinfo (profile_slower.fire args t e)
  = if is_tick e then profile_slower.entryinfo t'
    else profile_slower.entryinfo (profile_slower.fire args t' e).
Proof.
  intros Heq. destruct e as [h i|h|h]; simpl.
  - by rewrite Heq.
  - unfold profile_slower.trace_return. rewrite Heq.
    by destruct (profile_slower.entryinfo t' !! _).
  - rewrite <- Heq.
    by destruct (do_perf_event_cases args h t) as [[_ ->]|[_ ->]].
Qed.

(** X18: the two tables do not interfere.  The pending-call table at the
    end of a run is what the entry and return probes alone would have
    left, wherever the timer ticked in between; and a run without ticks
    leaves the counts as they were. *)
Theorem profiler_tables_are_independent
    (args : profile_slower.Args) (es : list profile_slower.event)
    (t : profile_slower.tables) :
  profile_slower.entryinfo (profile_slower.run args es t)
    = profile_slower.entryinfo
        (profile_slower.run args (filter (λ e, is_tick e = false) es) t)
  ∧ (Forall (λ e, is_tick e = false) es →
     profile_slower.counts (profile_slower.run args es t)
       = profile_slower.counts t).
Proof.
  split.
  - assert (Hgen : ∀ t t',
      profile_slower.entryinfo t = profile_slower.entryinfo t' →
      profile_slower.entryinfo (profile_slower.run args es t)
      = profile_slower.entryinfo
          (profile_slower.run args (filter (λ e, is_tick e = false) es) t')).
    { induction es as [|e es IH]; intros t1 t2 Heq; [done|].
      change (profile_slower.run args (e :: es) t1)
        with (profile_slower.run args es (profile_slower.fire args t1 e)).
      pose proof (profiler_fire_entryinfo args e t1 t2 Heq) as Hfire.
      destruct (is_tick e) eqn:Htick.
      - rewrite filter_cons_False by (by rewrite Htick). by apply IH.
      - rewrite filter_cons_True by done.
        change (profile_slower.run args (e :: filter _ es) t2)
          with (profile_slower.run args (filter (λ e, is_tick e = false) es)
                  (profile_slower.fire args t2 e)).
        by apply IH. }
    by apply Hgen.
  - intros Hall. revert t.
    induction Hall as [|e es He _ IH]; intros t; [done|].
    change (profile_slower.run args (e :: es) t)
      with (profile_slower.run args es (profile_slower.fire args t e)).
    rewrite IH. destruct e as [h i|h|h]; [done| |done].
    simpl. unfold profile_slower.trace_return.
    by destruct (profile_slower.entryinfo t !! _).
Qed.

Lemma profiler_tables_are_independent_witness :
  profile_slower.counts
    (profile_slower.run samples.profiler
       [profile_slower.Entry (samples.at_time 0) 0;
        profile_slower.Return (samples.at_time 3000001)]
       samples.no_tables)
  = ∅.
Proof.
  apply (profiler_tables_are_independent samples.profiler
           [profile_slower.Entry (samples.at_time 0) 0;
            profile_slower.Return (samples.at_time 3000001)]
           samples.no_tables).
  repeat constructor.
Defined.

(** X19: from the hook to the report.  For the key of a counted tick
    whose kernel stack was captured, the kernel frames the report prints
    are the stored stack with the interrupted instruction pointer in
    front when that pointer lies above [page_offset], and the stored stack
    alone otherwise; when the kernel stack was not captured there are no
    kernel frames. *)
Theorem profiler_kernel_frames_of_tick
    (args : profile_slower.Args) (b : BPF) (h : hook) :
  0 ≤ page_offset (profile_slower.kernel args) →
  let key := profile_slower.perf_key args h in
  (0 ≤ profile_slower.kernel_stack_id key →
   profile_slower.fixed_kernel_stack b key
     = if page_offset (profile_slower.kernel args) <? PT_REGS_IP (ctx h)
       then PT_REGS_IP (ctx h)
            :: stack_traces_walk b (profile_slower.kernel_stack_id key)
       else stack_traces_walk b (profile_slower.kernel_stack_id key))
  ∧ (profile_slower.kernel_stack_id key < 0 →
     profile_slower.fixed_kernel_stack b key = []
     ∧ profile_slower.kernel_ip key = 0).
Proof.
  intros Hpo key. split.
  - intros Hk. unfold profile_slower.fixed_kernel_stack.
    assert ((profile_slower.kernel_stack_id key <? 0) = false) as -> by lia.
    assert ((0 <=? profile_slower.kernel_stack_id key) = true) as Hle by lia.
    rewrite Hle. unfold key, profile_slower.perf_key in *. simpl in *.
    rewrite Hle.
    destruct (Z.ltb_spec (page_offset (profile_slower.kernel args))
                (PT_REGS_IP (ctx h))); simpl; [|done].
    by assert ((PT_REGS_IP (ctx h) =? 0) = false) as -> by lia.
  - intros Hk. unfold profile_slower.fixed_kernel_stack.
    assert ((0 <=? profile_slower.kernel_stack_id key) = false) as Hle by lia.
    rewrite Hle. split; [done|].
    unfold key, profile_slower.perf_key in *. simpl in *. by rewrite Hle.
Qed.

Lemma profiler_kernel_frames_of_tick_witness :
  profile_slower.fixed_kernel_stack samples.bpf
    (profile_slower.perf_key samples.profiler (samples.at_time 0))
  = [0xffffffff81234567; 0xffffffff81000100].
Proof.
  destruct (profiler_kernel_frames_of_tick samples.profiler samples.bpf
              (samples.at_time 0)) as [Hcaptured _]; [by vm_compute|].
  etrans.
  - apply Hcaptured. by vm_compute.
  - by vm_compute.
Defined.

(** X20: a stack that was not asked for is never reported as missing.
    With [-U] the key's kernel stack id is -1 and its [kernel_ip] zero,
    and the key counts as missing exactly when the user stack id is an
    error; with [-K] the same holds with the two stacks exchanged. *)
Theorem profiler_unrequested_stack_is_not_missing
    (args : profile_slower.Args) (h : hook) :
  let key := profile_slower.perf_key args h in
  (profile_slower.user_stacks_only args = true →
   profile_slower.kernel_stack_id key = -1
   ∧ profile_slower.kernel_ip key = 0
   ∧ (profile_slower.kernel_stacks_only args = false →
      profile_slower.stack_missing args key
        = stack_id_err (get_stackid_user h)))
  ∧ (profile_slower.user_stacks_only args = false →
     profile_slower.kernel_stacks_only args = true →
     profile_slower.user_stack_id key = -1
     ∧ profile_slower.stack_missing args key
       = stack_id_err (get_stackid_kernel h)).
Proof.
  intros key. unfold key, profile_slower.perf_key,
    profile_slower.stack_missing, profile_slower.USER_STACK_GET,
    profile_slower.KERNEL_STACK_GET, stack_id_err.
  split.
  - intros HU. rewrite HU. simpl. split; [done|]. split; [done|].
    by intros ->.
  - intros HU HK. rewrite HU, HK. simpl. split; [done|].
    by rewrite orb_false_r.
Qed.

Lemma profiler_unrequested_stack_is_not_missing_witness :
  profile_slower.stack_missing more_samples.profiler_U
    (profile_slower.perf_key more_samples.profiler_U (samples.at_time 0))
  = false.
Proof.
  destruct (profiler_unrequested_stack_is_not_missing
              more_samples.profiler_U (samples.at_time 0)) as [HU _].
  destruct (HU eq_refl) as (_ & _ & Hmissing).
  etrans.
  - apply Hmissing. reflexivity.
  - reflexivity.
Defined.

(** * Further properties of the profiler's report *)

(** X21: the bookkeeping of the output loop, when every command name in
    the table decodes, so that the loop runs to its end.  [missing_stacks]
    is then the number of entries of the table whose key has a failed
    stack id for a stack that was asked for, and [has_enomem] tells
    whether one of them failed with [-ENOMEM]; the warning is left out
    exactly when no entry is missing. *)
Theorem profiler_warning_counts_missing_stacks
    (decode : string → option string)
    (args : profile_slower.Args) (b : BPF)
    (counts : gmap profile_slower.key_t Z) :
  names_decode decode (map_to_list counts) →
  let missing :=
    filter (λ kv, profile_slower.stack_missing args kv.1 = true)
           (map_to_list counts) in
  ∃ has_enomem,
    (profile_slower.output_stacks decode args b counts).2
      = inr (Z.of_nat (length missing), has_enomem)
    ∧ (has_enomem = true
       ↔ ∃ kv, kv ∈ map_to_list counts ∧ enomem_entry args kv = true)
    ∧ (profile_slower.missing_warning (Z.of_nat (length missing)) has_enomem
         = []
       ↔ missing = []).
Proof.
  intros Hnames missing.
  exists (existsb (enomem_entry args) (profile_slower.output_order counts)).
  assert (Hperm : profile_slower.output_order counts ≡ₚ map_to_list counts)
    by apply sorted_perm.
  assert (Horder : names_decode decode (profile_slower.output_order counts)).
  { unfold names_decode. by rewrite Hperm. }
  split; [|split].
  - unfold profile_slower.output_stacks.
    unfold mret at 1, py_ret. rewrite output_loop_all by done. simpl.
    f_equal. f_equal. f_equal. unfold missing. by rewrite Hperm.
  - rewrite existsb_exists. split.
    + intros (kv & Hin & Hkv). exists kv. split; [|done].
      rewrite <- Hperm. by apply list_elem_of_In.
    + intros (kv & Hin & Hkv). exists kv. split; [|done].
      apply list_elem_of_In. by rewrite Hperm.
  - unfold profile_slower.missing_warning.
    destruct missing as [|kv l]; [done|].
    destruct (Z.ltb_spec 0 (Z.of_nat (length (kv :: l)))) as [_|Hle];
      [done|].
    simpl length in Hle. lia.
Qed.

Lemma names_decode_some_counts :
  names_decode samples.ascii_decode (map_to_list more_samples.some_counts).
Proof.
  unfold names_decode.
  apply (bool_decide_unpack
           (Forall (λ kv : profile_slower.key_t * Z,
                      is_Some (samples.ascii_decode
                                 (profile_slower.name kv.1)))
                   (map_to_list more_samples.some_counts))).
  by vm_compute.
Defined.

Lemma profiler_warning_counts_missing_stacks_witness :
  ∃ has_enomem,
    (profile_slower.output_stacks samples.ascii_decode samples.profiler
       samples.bpf more_samples.some_counts).2 = inr (2, has_enomem).
Proof.
  destruct (profiler_warning_counts_missing_stacks samples.ascii_decode
              samples.profiler samples.bpf more_samples.some_counts
              names_decode_some_counts)
    as (has_enomem & Hstate & _).
  exists has_enomem. etrans; [exact Hstate|]. by vm_compute.
Defined.

(** X22: in folded mode, when every command name in the table decodes,
    the report has exactly one line per entry of the table, in the order
    of the output loop (ascending count), and each line ends in a space
    and the count of its entry. *)
Theorem profiler_folded_one_line_per_entry
    (decode : string → option string)
    (args : profile_slower.Args) (b : BPF)
    (counts : gmap profile_slower.key_t Z) :
  profile_slower.folded args = true →
  names_decode decode (map_to_list counts) →
  Forall2 (λ line kv, ∃ body, line = body +:+ " " +:+ fmt_d kv.2)
    (stdout (profile_slower.output_stacks decode args b counts))
    (profile_slower.output_order counts)
  ∧ length (stdout (profile_slower.output_stacks decode args b counts))
    = size counts.
Proof.
  intros Hf Hnames.
  assert (Hperm : profile_slower.output_order counts ≡ₚ map_to_list counts)
    by apply sorted_perm.
  assert (Horder : names_decode decode (profile_slower.output_order counts)).
  { unfold names_decode. by rewrite Hperm. }
  assert (Hout : stdout (profile_slower.output_stacks decode args b counts)
                 = concat (map (λ kv, (profile_slower.print_entry decode
                                         args b kv).1)
                             (profile_slower.output_order counts))).
  { unfold profile_slower.output_stacks.
    unfold mret at 1, py_ret. by rewrite output_loop_all. }
  assert (Hall : Forall2 (λ line kv, ∃ body, line = body +:+ " " +:+ fmt_d kv.2)
                   (stdout (profile_slower.output_stacks decode args b counts))
                   (profile_slower.output_order counts)).
  { rewrite Hout. clear Hout Hperm.
    induction Horder as [|kv l [text Htext] _ IH]; [constructor|].
    pose proof (profiler_print_entry_cases decode args b kv) as Hc.
    rewrite Htext in Hc. destruct Hc as [_ Hend].
    unfold ends_with_count in Hend. rewrite Hf in Hend.
    destruct Hend as [body Hbody].
    cbn [map concat]. rewrite Hbody. simpl.
    constructor; [by exists body | exact IH]. }
  split; [exact Hall|].
  rewrite (Forall2_length _ _ _ Hall).
  rewrite (Permutation_length Hperm).
  apply length_map_to_list.
Qed.

Lemma profiler_folded_one_line_per_entry_witness :
  length (stdout (profile_slower.output_stacks samples.ascii_decode
                    (samples.profiler_with true false) samples.bpf
                    more_samples.some_counts)) = 3%nat.
Proof.
  etrans.
  - apply (profiler_folded_one_line_per_entry samples.ascii_decode
             (samples.profiler_with true false) samples.bpf
             more_samples.some_counts);
      [reflexivity | exact names_decode_some_counts].
  - by vm_compute.
Defined.

(** * End to end *)

(** X23: a traced call that lasts at least the threshold is reported
    with what was observed: the probe's index, the time of entry, the
    elapsed time between entry and return, and the return value, command
    name and thread of the return; the thread's slot is free again. *)
Theorem tracer_reports_elapsed_time
    (args : funcslower.Args) (entry ret : hook) (i : nat)
    (entryinfo : gmap Z entry_t) :
  funcslower.TGID_FILTER args (u32 (bpf_get_current_pid_tgid entry ≫ 32))
    = false →
  bpf_get_current_pid_tgid ret = bpf_get_current_pid_tgid entry →
  0 ≤ funcslower.duration_ns args < 2 ^ 64 →
  funcslower.duration_ns args
    ≤ bpf_ktime_get_ns ret - bpf_ktime_get_ns entry < 2 ^ 64 →
  Z.of_nat i < 2 ^ 64 →
  ∃ data,
    funcslower.trace_return args ret
      (funcslower.trace_ args i entry entryinfo)
    = (delete (bpf_get_current_pid_tgid entry) entryinfo, Some data)
    ∧ funcslower.d_id data = Z.of_nat i
    ∧ funcslower.start_ns data = bpf_ktime_get_ns entry
    ∧ funcslower.d_duration_ns data
      = bpf_ktime_get_ns ret - bpf_ktime_get_ns entry
    ∧ funcslower.retval data = PT_REGS_RC (ctx ret)
    ∧ funcslower.name data = bpf_get_current_comm ret
    ∧ funcslower.tgid_pid data = bpf_get_current_pid_tgid ret.
Proof.
  intros Hf Hsame Hthr Helapsed Hi.
  rewrite tracer_entry_insert by done.
  unfold funcslower.trace_return. rewrite Hsame, lookup_insert_eq.
  unfold entry_of at 1. cbn [e_start_ns].
  unfold funcslower.DURATION_NS, u64_of_literal.
  rewrite !u64_small by lia.
  assert ((bpf_ktime_get_ns ret - bpf_ktime_get_ns entry
           <? funcslower.duration_ns args) = false) as -> by lia.
  eexists. split; [by rewrite delete_insert_eq|].
  simpl. rewrite !u64_small by lia. done.
Qed.

Lemma tracer_reports_elapsed_time_witness :
  ∃ data,
    funcslower.trace_return samples.tracer_K (samples.at_time 15000100)
      (funcslower.trace_ samples.tracer_K 0 (samples.at_time 100) ∅)
    = (∅, Some data)
    ∧ funcslower.d_duration_ns data = 15000000.
Proof.
  destruct (tracer_reports_elapsed_time samples.tracer_K
              (samples.at_time 100) (samples.at_time 15000100) 0 ∅)
    as (data & Hret & _ & _ & Hduration & _);
    [reflexivity | reflexivity | by vm_compute | by vm_compute
    | by vm_compute |].
  exists data. split.
  - etrans; [exact Hret|]. by rewrite delete_empty.
  - etrans; [exact Hduration|]. reflexivity.
Defined.

Lemma tracer_tree_output_both_requested_witness :
  funcslower.print_stack samples.ascii_decode (samples.tracer_UK false)
    samples.bpf (samples.record 1 (-1))
  = (["    -                w (30064771079)"], inr tt).
Proof.
  etrans.
  - apply (tracer_tree_output_both_requested samples.ascii_decode
             (samples.tracer_UK false) samples.bpf (samples.record 1 (-1)));
      reflexivity.
  - by vm_compute.
Defined.

(** X25: the tracer's tree output with [-U] alone: the user frames as
    [walk] yields them (no frame for a negative stack id), or the
    placeholder when the stack id is an error other than [-EFAULT]; then,
    if the command name decodes, the summary line with the name and the
    whole 64-bit [pid_tgid] value; if it does not decode, a
    [UnicodeDecodeError] after the frames have been written. *)
Theorem tracer_tree_output_user_only
    (decode : string → option string)
    (args : funcslower.Args) (b : BPF) (event : funcslower.data_t) :
  funcslower.folded args = false →
  funcslower.user_stack args = true →
  funcslower.kernel_stack args = false →
  let frames :=
    if stack_id_err (funcslower.user_stack_id event)
    then ["    [Missed User Stack]"]
    else map (λ addr, "    " +:+ sym b addr (funcslower.tgid_pid event))
           (if funcslower.user_stack_id event <? 0 then []
            else stack_traces_walk b (funcslower.user_stack_id event)) in
  funcslower.print_stack decode args b event
    = match decode (funcslower.name event) with
      | Some text =>
          (frames
           ++ ["    " +:+ fmt_ljust 16 "-" +:+ " " +:+ text
                 +:+ " (" +:+ fmt_d (funcslower.tgid_pid event) +:+ ")"],
           inr tt)
      | None => (frames, inl UnicodeDecodeError)
      end.
Proof.
  intros Hf HU HK frames. unfold frames, funcslower.print_stack,
    funcslower.need_delimiter, py_decode.
  rewrite Hf, HU, HK. simpl negb. simpl andb. simpl orb. cbv iota.
  rewrite py_for_print.
  destruct (stack_id_err (funcslower.user_stack_id event)),
    (decode (funcslower.name event)); simpl; by rewrite ?app_nil_r.
Qed.

Lemma tracer_tree_output_user_only_witness :
  funcslower.print_stack samples.ascii_decode
    {| funcslower.tgid := None; funcslower.arguments := None;
       funcslower.time := false; funcslower.timestamp := false;
       funcslower.functions := ["vfs_write"];
       funcslower.user_stack := true; funcslower.kernel_stack := false;
       funcslower.folded := false; funcslower.duration_ns := 1000000;
       funcslower.kernel := samples.x86_64 |}
    samples.bpf (samples.record 1 0)
  = (["    f2"; "    f1"; "    -                w (30064771079)"], inr tt).
Proof.
  etrans.
  - apply tracer_tree_output_user_only; reflexivity.
  - by vm_compute.
Defined.

(** X26: with [-p PID] the profiler counts only that process: if the
    keys of the table all carry the pid to begin with, so do the keys at
    the end of any run. *)
Theorem profiler_pid_filter
    (args : profile_slower.Args) (p : Z) (es : list profile_slower.event)
    (t : profile_slower.tables) :
  profile_slower.pid args = Some p →
  0 ≤ p →
  map_Forall (λ key _, profile_slower.k_pid key = p)
    (profile_slower.counts t) →
  map_Forall (λ key _, profile_slower.k_pid key = p)
    (profile_slower.counts (profile_slower.run args es t)).
Proof.
  intros Hpid Hp. revert t.
  induction es as [|e es IH]; intros t Ht; [done|].
  change (profile_slower.run args (e :: es) t)
    with (profile_slower.run args es (profile_slower.fire args t e)).
  apply IH. destruct e as [h i|h|h]; simpl.
  - done.
  - unfold profile_slower.trace_return.
    by destruct (profile_slower.entryinfo t !! _).
  - destruct (do_perf_event_cases args h t) as [[_ ->]|[Hcap ->]]; [done|].
    simpl. apply map_Forall_insert_2; [|done].
    unfold profile_slower.captures in Hcap.
    apply andb_true_iff in Hcap as [Hfilter _].
    unfold profile_slower.THREAD_FILTER, u32_cmp_literal in Hfilter.
    rewrite Hpid in Hfilter.
    assert ((p <? 0) = false) as Hneg by lia.
    rewrite Hneg, andb_false_r in Hfilter.
    unfold profile_slower.perf_key. simpl. lia.
Qed.

Lemma profiler_pid_filter_witness :
  map_Forall (λ key _, profile_slower.k_pid key = 7)
    (profile_slower.counts
       (profile_slower.run
          {| profile_slower.pid := Some 7;
             profile_slower.user_stacks_only := false;
             profile_slower.kernel_stacks_only := false;
             profile_slower.frequency := 49;
             profile_slower.delimited := false;
             profile_slower.annotations := false;
             profile_slower.folded := false;
             profile_slower.stack_storage_size := 10240;
             profile_slower.duration := 99999999;
             profile_slower.functions := ["vfs_write"];
             profile_slower.kernel := samples.x86_64 |}
          samples.ticks samples.no_tables)).
Proof.
  apply profiler_pid_filter; [reflexivity | lia | apply map_Forall_empty].
Defined.
